(** * Music ConnectZ: the form-validation engine of [public/js/validation.js]

    A shallow embedding of [ValidationManager] (rule registry, the ten
    validators, the chain evaluator [validateField], the submit handler
    installed by [initForm], and [validateFile]) together with the
    properties of the specification that concern them.

    Conventions of the embedding:
    - a JavaScript string is a [string]: a sequence of code units below 256;
    - [undefined] is [None] (or a constructor of its own in [Arg]);
    - a call that may raise a [TypeError] returns a [Completion];
    - what the browser computes and the source only calls ([new URL],
      [parseFloat], [Date], [toLocaleDateString]) is a field of the record
      [Platform];
    - [console.warn] and [console.error] write a diagnostic and have no
      effect on control flow or on any value; they are left out. *)

From Stdlib Require Import ZArith List Bool Ascii String Lia.
From Stdlib Require Import Numbers.DecimalString Numbers.DecimalPos Numbers.DecimalZ.
From Stdlib Require Import Sorting.Permutation.
Import ListNotations.

#[local] Open Scope string_scope.
#[local] Open Scope Z_scope.

(** ** JavaScript strings *)

Module JsString.

(** Code units that [String.prototype.trim], [parseInt] and the regular
    expression class [\s] treat as white space (WhiteSpace and
    LineTerminator of ECMAScript, restricted to code units below 256):
    TAB, LF, VT, FF, CR, SPACE, NBSP. *)
Definition isWhiteSpace (c : ascii) : bool :=
  let n := N_of_ascii c in
  ((9 <=? n) && (n <=? 13) || (n =? 32) || (n =? 160))%N.

(** LineTerminator: the code units the regular expression [.] refuses. *)
Definition isLineTerminator (c : ascii) : bool :=
  let n := N_of_ascii c in ((n =? 10) || (n =? 13))%N.

(** The class [\d]. *)
Definition isDigit (c : ascii) : bool :=
  let n := N_of_ascii c in ((48 <=? n) && (n <=? 57))%N.

(** The class [[a-z]]. *)
Definition isLower (c : ascii) : bool :=
  let n := N_of_ascii c in ((97 <=? n) && (n <=? 122))%N.

(** The class [[A-Z]]. *)
Definition isUpper (c : ascii) : bool :=
  let n := N_of_ascii c in ((65 <=? n) && (n <=? 90))%N.

Fixpoint trimStart (s : string) : string :=
  match s with
  | EmptyString => EmptyString
  | String c s' => if isWhiteSpace c then trimStart s' else s
  end.

Fixpoint trimEnd (s : string) : string :=
  match s with
  | EmptyString => EmptyString
  | String c s' =>
      match trimEnd s' with
      | EmptyString => if isWhiteSpace c then EmptyString else String c EmptyString
      | t => String c t
      end
  end.

(** [s.trim()] *)
Definition trim (s : string) : string := trimEnd (trimStart s).

(** [s.split(sep)] for a separator of one code unit: never empty, and
    [split sep ""] is [[""]]. *)
Fixpoint split (sep : ascii) (s : string) : list string :=
  match s with
  | EmptyString => [EmptyString]
  | String c s' =>
      if Ascii.eqb c sep then EmptyString :: split sep s'
      else match split sep s' with
           | piece :: rest => String c piece :: rest
           | [] => [String c EmptyString]
           end
  end.

(** [a.pop()] on an array: its last element, [undefined] when empty. *)
Definition pop {A : Type} (a : list A) : option A := last (map Some a) None.

(** [s.toLowerCase()] on code units below 256: [A-Z] and the upper-case
    letters of Latin-1 (192..222 but 215) move up by 32, each code unit on
    its own.  Beyond those code units [String.prototype.toLowerCase]
    depends on the context (a final sigma), which is outside the
    embedding. *)
Definition lowerChar (c : ascii) : ascii :=
  let n := N_of_ascii c in
  if ((65 <=? n) && (n <=? 90) || (192 <=? n) && (n <=? 222) && negb (n =? 215))%N
  then ascii_of_N (n + 32) else c.

Fixpoint toLowerCase (s : string) : string :=
  match s with
  | EmptyString => EmptyString
  | String c s' => String (lowerChar c) (toLowerCase s')
  end.

(** [a.includes(x)] on an array of strings. *)
Definition includes (a : list string) (x : string) : bool :=
  existsb (String.eqb x) a.

(** [a.join(sep)] *)
Definition join (sep : string) (a : list string) : string := String.concat sep a.

(** [value.replace(/\D/g, '')]: the digits of the value. *)
Fixpoint digitsOnly (s : string) : string :=
  match s with
  | EmptyString => EmptyString
  | String c s' => if isDigit c then String c (digitsOnly s') else digitsOnly s'
  end.

(** [s.length] *)
Definition len (s : string) : Z := Z.of_nat (String.length s).

(** Truthiness of a string: only [""] is falsy. *)
Definition truthy (s : string) : bool := negb (String.eqb s "").

End JsString.

(** ** JavaScript numbers, as far as [parseInt] produces them *)

Module JsNumber.
Import JsString.

(** The result of [parseInt]: [NaN] or an integer.  [Int z] stands for the
    double nearest to [z]; up to [2^53] in magnitude that is [z] itself.
    [-0] and [+0] are both [Int 0]: they compare and print alike. *)
Inductive Number : Type :=
| NaN
| Int (z : Z).

(** The value of a digit in the given radix, [None] when the code unit is
    not a digit of that radix. *)
Definition digitValue (radix : Z) (c : ascii) : option Z :=
  let n := Z.of_N (N_of_ascii c) in
  let v := if isDigit c then Some (n - 48)
           else if isLower c then Some (n - 97 + 10)
           else if isUpper c then Some (n - 65 + 10)
           else None in
  match v with
  | Some d => if d <? radix then Some d else None
  | None => None
  end.

(** The mathematical value of the longest prefix of digits of [s]. *)
Fixpoint digitsValue (radix : Z) (s : string) (acc : Z) : Z :=
  match s with
  | EmptyString => acc
  | String c s' =>
      match digitValue radix c with
      | Some d => digitsValue radix s' (acc * radix + d)
      | None => acc
      end
  end.

Definition startsWithDigit (radix : Z) (s : string) : bool :=
  match s with
  | EmptyString => false
  | String c _ => match digitValue radix c with Some _ => true | None => false end
  end.

(** [parseInt(input)] with no radix argument (ECMAScript 19.2.5): leading
    white space is dropped, then an optional sign, then [0x] or [0X]
    selects radix 16, then the longest prefix of digits is read; no digit
    at all gives [NaN]. *)
Definition parseInt (input : string) : Number :=
  let s := trimStart input in
  let '(sign, s1) :=
    match s with
    | String "-" r => (-1, r)
    | String "+" r => (1, r)
    | _ => (1, s)
    end in
  let '(radix, s2) :=
    match s1 with
    | String "0" (String "x" r) => (16, r)
    | String "0" (String "X" r) => (16, r)
    | _ => (10, s1)
    end in
  if startsWithDigit radix s2 then Int (sign * digitsValue radix s2 0) else NaN.

(** The decimal numeral of an integer: ["0"], ["42"], ["-7"]. *)
Definition decimal (z : Z) : string := NilZero.string_of_int (Z.to_int z).

(** [String(n)], as a template literal interpolates it.  For an integer
    below [10^21] in magnitude it is the decimal numeral. *)
Definition numberToString (n : Number) : string :=
  match n with
  | NaN => "NaN"
  | Int z => decimal z
  end.

(** [x >= n] and [x <= n] for an integer [x]; any comparison with [NaN]
    is false. *)
Definition geNumber (x : Z) (n : Number) : bool :=
  match n with NaN => false | Int z => z <=? x end.

Definition leNumber (x : Z) (n : Number) : bool :=
  match n with NaN => false | Int z => x <=? z end.

End JsNumber.

(** ** Regular expressions

    The patterns of the source are transcribed as terms of [regex] and run
    by a matcher built on derivatives.  [Both] is intersection: a
    look-ahead [(?=r)] at the start of an anchored pattern [^(?=r)p$] asks
    that the input be in [r] followed by anything, and in [p]. *)

Module Regex.
Import JsString.

Inductive regex : Type :=
| Never
| Empty
| Class (p : ascii -> bool)
| Seq (r s : regex)
| Or (r s : regex)
| Both (r s : regex)
| Star (r : regex).

Fixpoint nullable (r : regex) : bool :=
  match r with
  | Never => false
  | Empty => true
  | Class _ => false
  | Seq r s => nullable r && nullable s
  | Or r s => nullable r || nullable s
  | Both r s => nullable r && nullable s
  | Star _ => true
  end.

Fixpoint deriv (c : ascii) (r : regex) : regex :=
  match r with
  | Never => Never
  | Empty => Never
  | Class p => if p c then Empty else Never
  | Seq r s =>
      if nullable r then Or (Seq (deriv c r) s) (deriv c s)
      else Seq (deriv c r) s
  | Or r s => Or (deriv c r) (deriv c s)
  | Both r s => Both (deriv c r) (deriv c s)
  | Star r => Seq (deriv c r) (Star r)
  end.

(** The whole input is in the language of [r]: a pattern [^r$]. *)
Fixpoint fullMatch (r : regex) (s : string) : bool :=
  match s with
  | EmptyString => nullable r
  | String c s' => fullMatch (deriv c r) s'
  end.

(** [.]: any code unit but a line terminator. *)
Definition dot : regex := Class (fun c => negb (isLineTerminator c)).

(** Any input at all, line terminators included. *)
Definition anything : regex := Star (Class (fun _ => true)).

(** [r+] *)
Definition plus (r : regex) : regex := Seq r (Star r).

(** [r{n,}] *)
Fixpoint atLeast (n : nat) (r : regex) : regex :=
  match n with
  | O => Star r
  | S n' => Seq r (atLeast n' r)
  end.

(** [(?=r)] at the start of an anchored pattern. *)
Definition lookahead (r : regex) : regex := Seq r anything.

(** [/r/.test(s)] for a pattern with no anchor: some substring matches. *)
Definition search (r : regex) (s : string) : bool :=
  fullMatch (Seq anything (Seq r anything)) s.

Definition oneOf (chars : string) : regex :=
  Class (fun c => existsb (Ascii.eqb c) (list_ascii_of_string chars)).

End Regex.

(** ** The validation engine *)

Module Validation.
Import JsString JsNumber Regex.

(** *** Values that cross the interfaces *)

(** The outcome of a call: a value, or an exception that propagates. *)
Inductive Completion (A : Type) : Type :=
| Normal (a : A)
| Throw (error : string).
Arguments Normal {A} a.
Arguments Throw {A} error.

(** The form controls a rule chain is bound to.  [String(field)] is
    ["[object " ++ class name ++ "]"]. *)
Inductive Control : Type :=
| HTMLInputElement
| HTMLTextAreaElement
| HTMLSelectElement.

Definition controlToString (c : Control) : string :=
  match c with
  | HTMLInputElement => "[object HTMLInputElement]"
  | HTMLTextAreaElement => "[object HTMLTextAreaElement]"
  | HTMLSelectElement => "[object HTMLSelectElement]"
  end.

(** An argument a validator receives after [value].  [validateField] calls
    [validator.call(this, value, ...params, field)]: the parameters of the
    rule, then the field itself; a position beyond those is [undefined]. *)
Inductive Arg : Type :=
| Param (s : string)
| FieldArg (c : Control)
| Undefined.

(** [String(a)], as property keys, [parseInt], [parseFloat],
    [getElementById] and template literals convert their argument. *)
Definition argToString (a : Arg) : string :=
  match a with
  | Param s => s
  | FieldArg c => controlToString c
  | Undefined => "undefined"
  end.

Definition argTruthy (a : Arg) : bool :=
  match a with
  | Param s => truthy s
  | FieldArg _ => true
  | Undefined => false
  end.

(** [{ valid, message }]; [message] is [None] where the source builds
    [{ valid: true }] and the property is undefined. *)
Record ValidationResult : Type := {
  valid : bool;
  message : option string
}.

(** [{ valid: true }] *)
Definition passes : ValidationResult := {| valid := true; message := None |}.

(** [{ valid: false, message: m }] *)
Definition fails (m : string) : ValidationResult :=
  {| valid := false; message := Some m |}.

(** [{ valid: isValid, message: isValid ? '' : m }] *)
Definition verdict (isValid : bool) (m : string) : ValidationResult :=
  {| valid := isValid; message := Some (if isValid then "" else m) |}.

(** What the browser provides and the source only calls. *)
Record Platform : Type := {
  (** [new URL(value)] returns instead of throwing *)
  urlParses : string -> bool;
  (** the numbers [parseFloat] returns, [NaN] apart *)
  float : Type;
  (** [parseFloat(s)], [None] for [NaN] *)
  parseFloat : string -> option float;
  (** [x < y] *)
  floatLtb : float -> float -> bool;
  (** [String(x)] *)
  floatToString : float -> string;
  (** [new Date(s).getTime()], [None] for [NaN] (an invalid date) *)
  parseDate : string -> option Z;
  (** [new Date(t).toLocaleDateString()] for a time value [t] *)
  toLocaleDateString : Z -> string
}.

(** The page as [document.getElementById] sees it: the elements that carry
    an [id] attribute, in tree order, each with its [value] property
    ([None] for an element whose [value] is not a string). *)
Definition Document : Type := list (string * option string).

(** [document.getElementById(id)]: the first element in tree order whose
    id is [id]; the empty string is the id of no element. *)
Definition getElementById (doc : Document) (id : string) : option (option string) :=
  if String.eqb id "" then None
  else option_map snd (find (fun e => String.eqb (fst e) id) doc).

(** *** Properties inherited from [Object.prototype]

    [this.validators] and the [rules] table of [validatePassword] are
    object literals, so a property read with a key they do not own
    continues to [Object.prototype]. *)
Inductive ObjectPrototypeMember : Type :=
| constructor
| toString
| toLocaleString
| valueOf
| hasOwnProperty
| isPrototypeOf
| propertyIsEnumerable
| defineGetter
| defineSetter
| lookupGetter
| lookupSetter
| proto.

Definition objectPrototype (key : string) : option ObjectPrototypeMember :=
  if String.eqb key "constructor" then Some constructor
  else if String.eqb key "toString" then Some toString
  else if String.eqb key "toLocaleString" then Some toLocaleString
  else if String.eqb key "valueOf" then Some valueOf
  else if String.eqb key "hasOwnProperty" then Some hasOwnProperty
  else if String.eqb key "isPrototypeOf" then Some isPrototypeOf
  else if String.eqb key "propertyIsEnumerable" then Some propertyIsEnumerable
  else if String.eqb key "__defineGetter__" then Some defineGetter
  else if String.eqb key "__defineSetter__" then Some defineSetter
  else if String.eqb key "__lookupGetter__" then Some lookupGetter
  else if String.eqb key "__lookupSetter__" then Some lookupSetter
  else if String.eqb key "__proto__" then Some proto
  else None.

(** The result of [table[key]] on an object literal. *)
Inductive Property (A : Type) : Type :=
| Own (a : A)
| Inherited (m : ObjectPrototypeMember)
| Absent.
Arguments Own {A} a.
Arguments Inherited {A} m.
Arguments Absent {A}.

Definition inheritedOrAbsent {A : Type} (key : string) : Property A :=
  match objectPrototype key with
  | Some m => Inherited m
  | None => Absent
  end.

(** *** The validators *)

(** [/^[^\s@]+@[^\s@]+\.[^\s@]+$/] *)
Definition emailRegex : regex :=
  let plain := Class (fun c => negb (isWhiteSpace c || Ascii.eqb c "@")) in
  Seq (plus plain)
      (Seq (Class (Ascii.eqb "@"))
           (Seq (plus plain) (Seq (Class (Ascii.eqb ".")) (plus plain)))).

Definition validateEmail (value : string) : ValidationResult :=
  if negb (truthy value) then passes
  else
    let isValid := fullMatch emailRegex value in
    verdict isValid "Please enter a valid email address".

Definition validatePhone (value : string) : ValidationResult :=
  if negb (truthy value) then passes
  else
    let digits := digitsOnly value in
    let isValid := (10 <=? len digits) && (len digits <=? 15) in
    verdict isValid "Please enter a valid phone number".

Definition validateURL (P : Platform) (value : string) : ValidationResult :=
  if negb (truthy value) then passes
  else if urlParses P value then passes
  else fails "Please enter a valid URL (e.g., https://example.com)".

Definition validateRequired (value : string) (fieldName : Arg) : ValidationResult :=
  let isValid := 0 <? len value in
  verdict isValid
    ((if argTruthy fieldName then argToString fieldName else "This field")
     ++ " is required").

Definition validateMinLength (value : string) (minLength : Arg) : ValidationResult :=
  if negb (truthy value) then passes
  else
    let min := parseInt (argToString minLength) in
    let isValid := geNumber (len value) min in
    verdict isValid ("Must be at least " ++ numberToString min ++ " characters").

Definition validateMaxLength (value : string) (maxLength : Arg) : ValidationResult :=
  if negb (truthy value) then passes
  else
    let max := parseInt (argToString maxLength) in
    let isValid := leNumber (len value) max in
    verdict isValid ("Must not exceed " ++ numberToString max ++ " characters").

(** [bound !== undefined], then [parseFloat(bound)]; [None] when the bound
    is undefined or not a number, and no comparison with it can hold. *)
Definition floatBound (P : Platform) (bound : Arg) : option (float P) :=
  match bound with
  | Undefined => None
  | _ => parseFloat P (argToString bound)
  end.

Definition validateNumber (P : Platform) (value : string) (min max : Arg)
  : ValidationResult :=
  if negb (truthy value) then passes
  else
    match parseFloat P value with
    | None => fails "Please enter a valid number"
    | Some num =>
        let belowMin :=
          match floatBound P min with
          | Some minNum => if floatLtb P num minNum then Some minNum else None
          | None => None
          end in
        match belowMin with
        | Some minNum => fails ("Must be at least " ++ floatToString P minNum)
        | None =>
            match floatBound P max with
            | Some maxNum =>
                if floatLtb P maxNum num
                then fails ("Must not exceed " ++ floatToString P maxNum)
                else passes
            | None => passes
            end
        end
    end.

(** [if (bound)], then [new Date(bound)]; [None] when the bound is falsy or
    an invalid date. *)
Definition dateBound (P : Platform) (bound : Arg) : option Z :=
  if argTruthy bound then parseDate P (argToString bound) else None.

Definition validateDate (P : Platform) (value : string) (minDate maxDate : Arg)
  : ValidationResult :=
  if negb (truthy value) then passes
  else
    match parseDate P value with
    | None => fails "Please enter a valid date"
    | Some date =>
        let belowMin :=
          match dateBound P minDate with
          | Some min => if date <? min then Some min else None
          | None => None
          end in
        match belowMin with
        | Some min => fails ("Date must be after " ++ toLocaleDateString P min)
        | None =>
            match dateBound P maxDate with
            | Some max =>
                if max <? date
                then fails ("Date must be before " ++ toLocaleDateString P max)
                else passes
            | None => passes
            end
        end
    end.

(** One tier of the [rules] table of [validatePassword]. *)
Record PasswordRule : Type := {
  ruleMinLength : Z;
  pattern : string -> bool;
  ruleMessage : string
}.

(** [/.{6,}/] *)
Definition weak : PasswordRule := {|
  ruleMinLength := 6;
  pattern := search (atLeast 6 dot);
  ruleMessage := "Password must be at least 6 characters"
|}.

(** [/^(?=.*[a-z])(?=.*[A-Z])(?=.*\d).{8,}$/] *)
Definition medium : PasswordRule := {|
  ruleMinLength := 8;
  pattern :=
    fullMatch
      (Both (lookahead (Seq (Star dot) (Class isLower)))
      (Both (lookahead (Seq (Star dot) (Class isUpper)))
      (Both (lookahead (Seq (Star dot) (Class isDigit)))
            (atLeast 8 dot))));
  ruleMessage :=
    "Password must be 8+ characters with uppercase, lowercase, and number"
|}.

(** [/^(?=.*[a-z])(?=.*[A-Z])(?=.*\d)(?=.*[@$!%*?&]).{12,}$/] *)
Definition strong : PasswordRule := {|
  ruleMinLength := 12;
  pattern :=
    fullMatch
      (Both (lookahead (Seq (Star dot) (Class isLower)))
      (Both (lookahead (Seq (Star dot) (Class isUpper)))
      (Both (lookahead (Seq (Star dot) (Class isDigit)))
      (Both (lookahead (Seq (Star dot) (oneOf "@$!%*?&")))
            (atLeast 12 dot)))));
  ruleMessage :=
    "Password must be 12+ characters with uppercase, lowercase, number, and special character"
|}.

(** [rules[strength]] *)
Definition rules (strength : string) : Property PasswordRule :=
  if String.eqb strength "weak" then Own weak
  else if String.eqb strength "medium" then Own medium
  else if String.eqb strength "strong" then Own strong
  else inheritedOrAbsent strength.

(** [validatePassword(value, strength = 'medium')].  [rules[strength] ||
    rules.medium] keeps whatever truthy value the read finds, a member of
    [Object.prototype] included; none of those has a [pattern], and
    [rule.pattern.test] then raises a [TypeError]. *)
Definition testRule (rule : PasswordRule) (value : string) : ValidationResult :=
  let isValid := pattern rule value in
  verdict isValid (ruleMessage rule).

Definition validatePassword (value : string) (strength : Arg)
  : Completion ValidationResult :=
  if negb (truthy value) then Normal passes
  else
    let key := match strength with
               | Undefined => "medium"
               | _ => argToString strength
               end in
    match rules key with
    | Own rule => Normal (testRule rule value)
    | Absent => Normal (testRule medium value)
    | Inherited _ =>
        Throw "TypeError: Cannot read properties of undefined (reading 'test')"
    end.

Definition validateMatch (doc : Document) (value : string) (targetFieldId : Arg)
  : ValidationResult :=
  match getElementById doc (argToString targetFieldId) with
  | None => fails "Configuration error"
  | Some targetValue =>
      let isValid := match targetValue with
                     | Some t => String.eqb value t
                     | None => false
                     end in
      verdict isValid "Fields do not match"
  end.

(** *** File validation *)

Record File : Type := {
  size : Z;
  type : string;
  name : string
}.

(** The configuration of [validateFile]; a list that is [None] is a falsy
    value ([null], [undefined]), which switches its check off. *)
Record FileConfig : Type := {
  maxSize : Z;
  allowedTypes : option (list string);
  allowedExtensions : option (list string)
}.

(** The [options] argument: a key that is absent is [None]. *)
Record FileOptions : Type := {
  optMaxSize : option Z;
  optAllowedTypes : option (option (list string));
  optAllowedExtensions : option (option (list string))
}.

(** [{}] *)
Definition noFileOptions : FileOptions :=
  {| optMaxSize := None; optAllowedTypes := None; optAllowedExtensions := None |}.

Definition defaults : FileConfig := {|
  maxSize := 10 * 1024 * 1024;
  allowedTypes :=
    Some ["image/jpeg"; "image/png"; "image/gif"; "audio/mpeg"; "audio/wav"; "video/mp4"];
  allowedExtensions :=
    Some [".jpg"; ".jpeg"; ".png"; ".gif"; ".mp3"; ".wav"; ".mp4"]
|}.

(** [{ ...defaults, ...options }] *)
Definition mergeFileConfig (d : FileConfig) (o : FileOptions) : FileConfig := {|
  maxSize := match optMaxSize o with Some m => m | None => maxSize d end;
  allowedTypes :=
    match optAllowedTypes o with Some t => t | None => allowedTypes d end;
  allowedExtensions :=
    match optAllowedExtensions o with Some e => e | None => allowedExtensions d end
|}.

(** [(maxSize / 1024 / 1024).toFixed(0)]: the quotient rounded to the
    nearest integer, a half away from zero, the sign kept in front. *)
Definition megabytes (maxSize : Z) : string :=
  let rounded := (2 * Z.abs maxSize + 1024 * 1024) / (2 * 1024 * 1024) in
  (if maxSize <? 0 then "-" else "") ++ decimal rounded.

(** ['.' + file.name.split('.').pop().toLowerCase()] *)
Definition extensionOf (fileName : string) : string :=
  "." ++ toLowerCase (match pop (split "." fileName) with
                      | Some last => last
                      | None => ""
                      end).

Definition validateFile (file : File) (options : FileOptions) : ValidationResult :=
  let config := mergeFileConfig defaults options in
  if maxSize config <? size file then
    fails ("File size must not exceed " ++ megabytes (maxSize config) ++ "MB")
  else
    let typeRefused :=
      match allowedTypes config with
      | Some types => negb (includes types (type file))
      | None => false
      end in
    if typeRefused then fails "File type not allowed"
    else
      let extension := extensionOf (name file) in
      match allowedExtensions config with
      | Some extensions =>
          if negb (includes extensions extension)
          then fails ("Only " ++ join ", " extensions ++ " files are allowed")
          else passes
      | None => passes
      end.

(** *** The rule registry *)

Inductive Validator : Type :=
| email
| phone
| url
| required
| minLength
| maxLength
| number
| date
| password
| match_.

(** [this.validators[validatorName]] *)
Definition validators (validatorName : string) : Property Validator :=
  if String.eqb validatorName "email" then Own email
  else if String.eqb validatorName "phone" then Own phone
  else if String.eqb validatorName "url" then Own url
  else if String.eqb validatorName "required" then Own required
  else if String.eqb validatorName "minLength" then Own minLength
  else if String.eqb validatorName "maxLength" then Own maxLength
  else if String.eqb validatorName "number" then Own number
  else if String.eqb validatorName "date" then Own date
  else if String.eqb validatorName "password" then Own password
  else if String.eqb validatorName "match" then Own match_
  else inheritedOrAbsent validatorName.

(** The argument at a position of the call, [undefined] beyond the last. *)
Definition arg (args : list Arg) (i : nat) : Arg := nth i args Undefined.

(** [validator.call(this, value, ...args)] for a validator of the registry. *)
Definition call (P : Platform) (doc : Document) (v : Validator)
  (value : string) (args : list Arg) : Completion ValidationResult :=
  match v with
  | email => Normal (validateEmail value)
  | phone => Normal (validatePhone value)
  | url => Normal (validateURL P value)
  | required => Normal (validateRequired value (arg args 0))
  | minLength => Normal (validateMinLength value (arg args 0))
  | maxLength => Normal (validateMaxLength value (arg args 0))
  | number => Normal (validateNumber P value (arg args 0) (arg args 1))
  | date => Normal (validateDate P value (arg args 0) (arg args 1))
  | password => validatePassword value (arg args 0)
  | match_ => Normal (validateMatch doc value (arg args 0))
  end.

(** What [validateField] reads of a value that is no validation result:
    its [valid] and [message] properties are both undefined, and
    [!result.valid] holds. *)
Definition noResult : ValidationResult := {| valid := false; message := None |}.

(** [validator.call(this, value, ...args)] where [validator] is a member of
    [Object.prototype], [this] the manager and [args] ends with the field:
    - [__proto__] is [Object.prototype] itself, which has no [call];
    - [__defineGetter__] and [__defineSetter__] refuse a second argument
      that is not callable, and a parameter or the field never is;
    - [__lookupGetter__] and [__lookupSetter__] return undefined, whose
      [valid] cannot be read, unless [value] names the one accessor on the
      prototype chain of the manager, [__proto__];
    - the others return a string, a boolean or an object with neither a
      [valid] nor a [message] property. *)
Definition callInherited (m : ObjectPrototypeMember) (value : string)
  (args : list Arg) : Completion ValidationResult :=
  match m with
  | proto => Throw "TypeError: validator.call is not a function"
  | defineGetter | defineSetter =>
      Throw "TypeError: Object.prototype.__defineGetter__: Expecting function"
  | lookupGetter | lookupSetter =>
      if String.eqb value "__proto__" then Normal noResult
      else Throw "TypeError: Cannot read properties of undefined (reading 'valid')"
  | constructor | toString | toLocaleString | valueOf
  | hasOwnProperty | isPrototypeOf | propertyIsEnumerable => Normal noResult
  end.

(** *** The chain evaluator *)

(** One turn of the loop of [validateField], up to the test of the result:
    [None] when the name is unknown and the rule is skipped. *)
Definition evaluateRule (P : Platform) (doc : Document) (value : string)
  (field : Control) (rule : string) : option (Completion ValidationResult) :=
  let parts := split ":" rule in
  let validatorName := hd "" parts in
  let params := tl parts in
  let args := (map Param params ++ [FieldArg field])%list in
  match validators validatorName with
  | Absent => None
  | Own validator => Some (call P doc validator value args)
  | Inherited m => Some (callInherited m value args)
  end.

(** The loop [for (const rule of rules)] of [validateField]: the final
    [isValid] and [errorMessage]. *)
Fixpoint evaluateChain (P : Platform) (doc : Document) (value : string)
  (field : Control) (rules : list string) : Completion (bool * option string) :=
  match rules with
  | [] => Normal (true, Some "")
  | rule :: rest =>
      match evaluateRule P doc value field rule with
      | None => evaluateChain P doc value field rest
      | Some (Throw e) => Throw e
      | Some (Normal result) =>
          if valid result then evaluateChain P doc value field rest
          else Normal (false, message result)
      end
  end.

(** *** Fields and their rendering *)

(** A bound field: its [value], its [data-validate] attribute, and the
    state [updateFieldUI] writes.  [errorElement] is the text of the
    [.error-message] element under the parent of the field.  The source
    removes the first such element found anywhere under that parent and
    appends the new one to it; the slot stands for that only where the
    parent holds the message of this field and of no other. *)
Record Field : Type := {
  control : Control;
  value : string;
  validate : string;
  classList : list string;
  ariaInvalid : option string;
  errorElement : option string
}.

(** The options of [initForm]; [None] is a key that is absent. *)
Record Options : Type := {
  validateOnBlur : option bool;
  validateOnInput : option bool;
  showSuccessIndicator : option bool;
  preserveDataOnError : option bool
}.

Definition defaultOptions : Options := {|
  validateOnBlur := Some true;
  validateOnInput := Some false;
  showSuccessIndicator := Some true;
  preserveDataOnError := Some true
|}.

(** [{}] *)
Definition noOptions : Options := {|
  validateOnBlur := None;
  validateOnInput := None;
  showSuccessIndicator := None;
  preserveDataOnError := None
|}.

Definition orElse {A : Type} (o d : option A) : option A :=
  match o with Some _ => o | None => d end.

(** [{ ...defaultOptions, ...options }] *)
Definition mergeOptions (d o : Options) : Options := {|
  validateOnBlur := orElse (validateOnBlur o) (validateOnBlur d);
  validateOnInput := orElse (validateOnInput o) (validateOnInput d);
  showSuccessIndicator := orElse (showSuccessIndicator o) (showSuccessIndicator d);
  preserveDataOnError := orElse (preserveDataOnError o) (preserveDataOnError d)
|}.

Definition optionTruthy (o : option bool) : bool :=
  match o with Some b => b | None => false end.

(** [classList.remove(...names)] and [classList.add(name)] *)
Definition classRemove (names : list string) (classes : list string) : list string :=
  filter (fun c => negb (includes names c)) classes.

Definition classAdd (name : string) (classes : list string) : list string :=
  if includes classes name then classes else (classes ++ [name])%list.

(** [element.textContent = m]: undefined is written as the empty text. *)
Definition textContent (m : option string) : string :=
  match m with Some s => s | None => "" end.

Definition updateFieldUI (field : Field) (isValid : bool)
  (errorMessage : option string) (config : Options) : Field :=
  let cleared := classRemove ["valid"; "invalid"] (classList field) in
  if isValid then
    let marked := classAdd "valid" cleared in
    {| control := control field;
       value := value field;
       validate := validate field;
       classList :=
         if optionTruthy (showSuccessIndicator config) && truthy (value field)
         then classAdd "has-success-icon" marked
         else marked;
       ariaInvalid := Some "false";
       errorElement := None |}
  else
    {| control := control field;
       value := value field;
       validate := validate field;
       classList := classAdd "invalid" cleared;
       ariaInvalid := Some "true";
       errorElement := Some (textContent errorMessage) |}.

(** [validateField(field, config)]: the field as rendered, and the boolean
    returned. *)
Definition validateField (P : Platform) (doc : Document) (field : Field)
  (config : Options) : Completion (Field * bool) :=
  let rules := split "|" (validate field) in
  let value := trim (value field) in
  match evaluateChain P doc value (control field) rules with
  | Throw e => Throw e
  | Normal (isValid, errorMessage) =>
      Normal (updateFieldUI field isValid errorMessage config, isValid)
  end.

(** *** Submission *)

(** The descendants of the form in tree order: the fields that carry
    [data-validate], which [initForm] collected, and the other elements
    with their classes. *)
Inductive Node : Type :=
| Bound (field : Field)
| Unbound (classes : list string).

Definition Form : Type := list Node.

(** [form.querySelectorAll('[data-validate]')] *)
Fixpoint inputs (form : Form) : list Field :=
  match form with
  | [] => []
  | Bound field :: rest => field :: inputs rest
  | Unbound _ :: rest => inputs rest
  end.

Definition hasClass (name : string) (node : Node) : bool :=
  match node with
  | Bound field => includes (classList field) name
  | Unbound classes => includes classes name
  end.

(** [form.querySelector('.invalid')]: the position in the form of the first
    element of class [invalid]. *)
Fixpoint querySelectorInvalid (form : Form) : option nat :=
  match form with
  | [] => None
  | node :: rest =>
      if hasClass "invalid" node then Some O
      else option_map S (querySelectorInvalid rest)
  end.

(** The state of the loop [inputs.forEach(...)] of the submit handler: the
    form as rendered so far, the fields [validateField] was called on, and
    [isValid], or the exception that ended the loop. *)
Record Loop : Type := {
  rendered : Form;
  evaluated : list Field;
  result : Completion bool
}.

Fixpoint forEachInput (P : Platform) (doc : Document) (config : Options)
  (form : Form) (isValid : bool) : Loop :=
  match form with
  | [] => {| rendered := []; evaluated := []; result := Normal isValid |}
  | Unbound classes :: rest =>
      let loop := forEachInput P doc config rest isValid in
      {| rendered := Unbound classes :: rendered loop;
         evaluated := evaluated loop;
         result := result loop |}
  | Bound input :: rest =>
      match validateField P doc input config with
      | Throw e =>
          {| rendered := form; evaluated := [input]; result := Throw e |}
      | Normal (input', ok) =>
          let loop := forEachInput P doc config rest (if ok then isValid else false) in
          {| rendered := Bound input' :: rendered loop;
             evaluated := input :: evaluated loop;
             result := result loop |}
      end
  end.

(** What one run of the submit handler does. *)
Record Submission (Data : Type) : Type := {
  defaultPrevented : bool;
  validated : list Field;
  page : Form;
  formValid : option Data;
  focused : option nat;
  uncaught : option string
}.
Arguments defaultPrevented {Data} _.
Arguments validated {Data} _.
Arguments page {Data} _.
Arguments formValid {Data} _.
Arguments focused {Data} _.
Arguments uncaught {Data} _.

Section SubmitHandler.

(** [getFormData] folds the entries of [new FormData(form)] into an object;
    no property below looks inside that object. *)
Context {Data : Type} (getFormData : Form -> Data).

(** The listener [initForm(formId, options)] installs for [submit], run on
    the form as it stands: [validated] lists the fields evaluated,
    [formValid] is the [detail.data] of the event dispatched, [focused]
    the position of the element given the focus, [uncaught] an exception
    that left the listener. *)
Definition onSubmit (P : Platform) (doc : Document) (options : Options)
  (form : Form) : Submission Data :=
  let config := mergeOptions defaultOptions options in
  let loop := forEachInput P doc config form true in
  match result loop with
  | Throw e =>
      {| defaultPrevented := true;
         validated := evaluated loop;
         page := rendered loop;
         formValid := None;
         focused := None;
         uncaught := Some e |}
  | Normal true =>
      {| defaultPrevented := true;
         validated := evaluated loop;
         page := rendered loop;
         formValid := Some (getFormData (rendered loop));
         focused := None;
         uncaught := None |}
  | Normal false =>
      {| defaultPrevented := true;
         validated := evaluated loop;
         page := rendered loop;
         formValid := None;
         focused := querySelectorInvalid (rendered loop);
         uncaught := None |}
  end.

End SubmitHandler.

(** *** Sample data for the statements below *)

(** A platform with a crude URL test, integers for numbers and day counts
    for dates. *)
Definition samplePlatform : Platform := {|
  urlParses := fun s => String.eqb (substring 0 8 s) "https://";
  float := Z;
  parseFloat := fun s => match parseInt s with Int z => Some z | NaN => None end;
  floatLtb := Z.ltb;
  floatToString := decimal;
  parseDate := fun s => match parseInt s with Int z => Some z | NaN => None end;
  toLocaleDateString := decimal
|}.

Definition input (value validate : string) : Field := {|
  control := HTMLInputElement;
  value := value;
  validate := validate;
  classList := [];
  ariaInvalid := None;
  errorElement := None
|}.

End Validation.

(** ** Vocabulary of the statements *)

Module Vocabulary.
Import JsString JsNumber Regex Validation.

(** The code unit occurs in the string. *)
Fixpoint occurs (c : ascii) (s : string) : bool :=
  match s with
  | EmptyString => false
  | String c' s' => Ascii.eqb c' c || occurs c s'
  end.

(** The chain goes on after this rule: the rule is skipped, or its result
    has [valid] true. *)
Definition continues (P : Platform) (doc : Document) (value : string)
  (field : Control) (rule : string) : bool :=
  match evaluateRule P doc value field rule with
  | None => true
  | Some (Normal result) => valid result
  | Some (Throw _) => false
  end.

(** The names the registry owns. *)
Definition builtinNames : list string :=
  ["email"; "phone"; "url"; "required"; "minLength"; "maxLength";
   "number"; "date"; "password"; "match"].

(** The integers a double holds exactly: [Number.isSafeInteger]. *)
Definition safeInteger (n : Z) : Prop := - 2 ^ 53 < n < 2 ^ 53.

(** [needle] is a substring of [s]. *)
Definition contains (s needle : string) : Prop :=
  exists before after, s = before ++ needle ++ after.

(** The evaluation of the field returns, and returns [ok]. *)
Definition returns (P : Platform) (doc : Document) (config : Options)
  (ok : bool) (field : Field) : Prop :=
  exists field', validateField P doc field config = Normal (field', ok).

(** The field passes: its evaluation returns true. *)
Definition passesField (P : Platform) (doc : Document) (config : Options)
  (field : Field) : bool :=
  match validateField P doc field config with
  | Normal (_, ok) => ok
  | Throw _ => false
  end.

(** The evaluation of the field raises no exception. *)
Definition completes (P : Platform) (doc : Document) (config : Options)
  (field : Field) : bool :=
  match validateField P doc field config with
  | Normal _ => true
  | Throw _ => false
  end.

(** The position in the form of the first element that is a bound field
    that does not pass, or another element of class [invalid]. *)
Fixpoint firstInvalid (P : Platform) (doc : Document) (config : Options)
  (form : Form) : option nat :=
  match form with
  | [] => None
  | Bound field :: rest =>
      if passesField P doc config field
      then option_map S (firstInvalid P doc config rest)
      else Some O
  | Unbound classes :: rest =>
      if includes classes "invalid" then Some O
      else option_map S (firstInvalid P doc config rest)
  end.

End Vocabulary.

(** ** The language of a pattern *)

Module Language.
Import JsString Regex.

(** The strings a pattern denotes; [fullMatch] decides it. *)
Inductive lang : regex -> string -> Prop :=
| lang_Empty : lang Empty ""
| lang_Class (p : ascii -> bool) (c : ascii) :
    p c = true -> lang (Class p) (String c "")
| lang_Seq (r s : regex) (u v : string) :
    lang r u -> lang s v -> lang (Seq r s) (u ++ v)
| lang_Or_l (r s : regex) (u : string) : lang r u -> lang (Or r s) u
| lang_Or_r (r s : regex) (u : string) : lang s u -> lang (Or r s) u
| lang_Both (r s : regex) (u : string) :
    lang r u -> lang s u -> lang (Both r s) u
| lang_Star_nil (r : regex) : lang (Star r) ""
| lang_Star_cons (r : regex) (u v : string) :
    lang r u -> lang (Star r) v -> lang (Star r) (u ++ v).

(** Every code unit of the string is in the class. *)
Fixpoint allChars (p : ascii -> bool) (s : string) : bool :=
  match s with
  | EmptyString => true
  | String c s' => p c && allChars p s'
  end.

(** Some code unit of the string is in the class. *)
Fixpoint someChar (p : ascii -> bool) (s : string) : bool :=
  match s with
  | EmptyString => false
  | String c s' => p c || someChar p s'
  end.

(** The class of [.]: any code unit but a line terminator. *)
Definition dotChar (c : ascii) : bool := negb (isLineTerminator c).

(** The class [[^\s@]] of the e-mail pattern. *)
Definition plainChar (c : ascii) : bool :=
  negb (isWhiteSpace c || Ascii.eqb c "@").

(** A part of an address: not empty, and free of white space and [@]. *)
Definition addressPart (s : string) : Prop :=
  s <> "" /\ allChars plainChar s = true.

(** The class [[@$!%*?&]] of the strong tier. *)
Definition isSymbol (c : ascii) : bool :=
  existsb (Ascii.eqb c) (list_ascii_of_string "@$!%*?&").

(** The call returns a result whose [valid] is true. *)
Definition accepted (c : Validation.Completion Validation.ValidationResult) : Prop :=
  exists result, c = Validation.Normal result /\ Validation.valid result = true.

End Language.

(** ** Rules, by what the chain does with them *)

Module Chains.
Import JsString Validation.

(** The rule lets the empty value through: its name is unknown, or names a
    validator other than [required] and [match]. *)
Definition guardsEmpty (rule : string) : bool :=
  match validators (hd "" (split ":" rule)) with
  | Absent => true
  | Own required => false
  | Own match_ => false
  | Own _ => true
  | Inherited _ => false
  end.

(** The rule raises no exception on this value. *)
Definition ruleReturns (P : Platform) (doc : Document) (value : string)
  (field : Control) (rule : string) : bool :=
  match evaluateRule P doc value field rule with
  | Some (Throw _) => false
  | _ => true
  end.

(** The boolean a chain evaluation ends with, if it ends. *)
Definition verdictOf (c : Completion (bool * option string)) : option bool :=
  match c with
  | Normal (isValid, _) => Some isValid
  | Throw _ => None
  end.

End Chains.

(** ** The listeners of [initForm], and [resetForm] *)

Module Listeners.
Import JsString Validation.

(** A field [initForm] has bound: the element, the value [form.reset()]
    gives it back, and whether the listener registered with
    [{ once: true }] is still in place. *)
Record Input : Type := {
  element : Field;
  defaultValue : string;
  touchOnce : bool
}.

(** The field as [initForm] leaves it: the listeners are registered. *)
Definition bind (element : Field) (defaultValue : string) : Input :=
  {| element := element; defaultValue := defaultValue; touchOnce := true |}.

Definition withClassList (field : Field) (classes : list string) : Field :=
  {| control := control field;
     value := value field;
     validate := validate field;
     classList := classes;
     ariaInvalid := ariaInvalid field;
     errorElement := errorElement field |}.

Definition withValue (field : Field) (v : string) : Field :=
  {| control := control field;
     value := v;
     validate := validate field;
     classList := classList field;
     ariaInvalid := ariaInvalid field;
     errorElement := errorElement field |}.

(** [this.validateField(input, config)] inside a listener: the field as
    rendered; an exception leaves the listener before [updateFieldUI] and
    the field is as it was. *)
Definition validateInListener (P : Platform) (doc : Document) (config : Options)
  (field : Field) : Field :=
  match validateField P doc field config with
  | Normal (field', _) => field'
  | Throw _ => field
  end.

(** The listeners of [blur], in the order [initForm] registers them: the
    validation when [config.validateOnBlur] holds, then, the first time
    only, the one that adds the class [touched]. *)
Definition onBlur (P : Platform) (doc : Document) (config : Options)
  (i : Input) : Input :=
  let field :=
    if optionTruthy (validateOnBlur config)
    then validateInListener P doc config (element i)
    else element i in
  {| element :=
       if touchOnce i
       then withClassList field (classAdd "touched" (classList field))
       else field;
     defaultValue := defaultValue i;
     touchOnce := false |}.

(** The listener of [input], registered when [config.validateOnInput]
    holds: it validates a field of class [touched]. *)
Definition onInput (P : Platform) (doc : Document) (config : Options)
  (i : Input) : Input :=
  if optionTruthy (validateOnInput config)
     && includes (classList (element i)) "touched"
  then {| element := validateInListener P doc config (element i);
          defaultValue := defaultValue i;
          touchOnce := touchOnce i |}
  else i.

(** What the user does to a bound field: leave it, or edit it, which sets
    its value and fires [input]. *)
Inductive Event : Type :=
| Blur
| Edit (newValue : string).

Definition dispatch (P : Platform) (doc : Document) (config : Options)
  (i : Input) (e : Event) : Input :=
  match e with
  | Blur => onBlur P doc config i
  | Edit newValue =>
      onInput P doc config
        {| element := withValue (element i) newValue;
           defaultValue := defaultValue i;
           touchOnce := touchOnce i |}
  end.

Definition run (P : Platform) (doc : Document) (config : Options)
  (i : Input) (events : list Event) : Input :=
  fold_left (dispatch P doc config) events i.

(** [resetForm] on one bound field: [form.reset()] restores the value, the
    four classes and [aria-invalid] are removed, and so is the error
    message.  The listeners stay as they are. *)
Definition resetInput (i : Input) : Input :=
  {| element :=
       {| control := control (element i);
          value := defaultValue i;
          validate := validate (element i);
          classList :=
            classRemove ["valid"; "invalid"; "touched"; "has-success-icon"]
              (classList (element i));
          ariaInvalid := None;
          errorElement := None |};
     defaultValue := defaultValue i;
     touchOnce := touchOnce i |}.

Definition resetForm (form : list Input) : list Input := map resetInput form.

End Listeners.

(** ** [sanitizeInput] *)

Module Sanitizer.

(** The serialization of a text node, as [innerHTML] returns it: [&], [<],
    [>] and the no-break space are replaced by their entities. *)
Definition escapeChar (c : ascii) : string :=
  if Ascii.eqb c "&" then "&amp;"
  else if Ascii.eqb c "<" then "&lt;"
  else if Ascii.eqb c ">" then "&gt;"
  else if Ascii.eqb c (ascii_of_N 160) then "&nbsp;"
  else String c "".

(** [temp.textContent = input; return temp.innerHTML] *)
Fixpoint sanitizeInput (input : string) : string :=
  match input with
  | EmptyString => EmptyString
  | String c rest => escapeChar c ++ sanitizeInput rest
  end.

(** The code units [sanitizeInput] replaces. *)
Definition special (c : ascii) : bool :=
  Ascii.eqb c "&" || Ascii.eqb c "<" || Ascii.eqb c ">"
  || Ascii.eqb c (ascii_of_N 160).

End Sanitizer.

(** ** [getFormData] *)

Module FormDataObject.
Import JsString Validation.

(** A value of a [FormData] entry. *)
Inductive EntryValue : Type :=
| Text (s : string)
| Upload (file : File).

Definition entryTruthy (v : EntryValue) : bool :=
  match v with
  | Text s => truthy s
  | Upload _ => true
  end.

(** An element of an array in [data]: a value of the form, or the member of
    [Object.prototype] that [data[key]] read before any value was stored. *)
Inductive Item : Type :=
| Entry (v : EntryValue)
| Member (m : ObjectPrototypeMember).

Inductive DataValue : Type :=
| Single (v : EntryValue)
| Many (items : list Item).

(** The own properties of [data], in insertion order. *)
Definition Data : Type := list (string * DataValue).

Fixpoint own (data : Data) (key : string) : option DataValue :=
  match data with
  | [] => None
  | (k, v) :: rest => if String.eqb k key then Some v else own rest key
  end.

(** [data[key] = v]: the property is replaced where it stands, or added
    last. *)
Fixpoint assign (data : Data) (key : string) (v : DataValue) : Data :=
  match data with
  | [] => [(key, v)]
  | (k, old) :: rest =>
      if String.eqb k key then (k, v) :: rest
      else (k, old) :: assign rest key v
  end.

(** One turn of the loop of [getFormData].  An entry named [__proto__] is
    outside the embedding ([None]): [data[key]] is then [Object.prototype]
    and the assignment replaces the prototype of [data]. *)
Definition store (data : option Data) (entry : string * EntryValue)
  : option Data :=
  let '(key, value) := entry in
  match data with
  | None => None
  | Some data =>
      if String.eqb key "__proto__" then None
      else
        match own data key with
        | Some (Many items) =>
            Some (assign data key (Many (items ++ [Entry value])))
        | Some (Single first) =>
            if entryTruthy first
            then Some (assign data key (Many [Entry first; Entry value]))
            else Some (assign data key (Single value))
        | None =>
            match objectPrototype key with
            | Some m => Some (assign data key (Many [Member m; Entry value]))
            | None => Some (assign data key (Single value))
            end
        end
  end.

(** [getFormData(form)] on the entries of [new FormData(form)]. *)
Definition getFormData (entries : list (string * EntryValue)) : option Data :=
  fold_left store entries (Some []).

(** The values the entries give for a key, in order. *)
Fixpoint valuesOf (key : string) (entries : list (string * EntryValue))
  : list EntryValue :=
  match entries with
  | [] => []
  | (k, v) :: rest =>
      if String.eqb k key then v :: valuesOf key rest else valuesOf key rest
  end.

(** The values left once the falsy ones in front are overwritten: the
    first truthy value and all that follow it, or the last value when none
    is truthy. *)
Fixpoint kept (values : list EntryValue) : list EntryValue :=
  match values with
  | [] => []
  | v :: rest =>
      if entryTruthy v then values
      else match rest with
           | [] => [v]
           | _ => kept rest
           end
  end.

(** How [data] holds a list of values: alone, or in an array. *)
Definition held (values : list EntryValue) : option DataValue :=
  match values with
  | [] => None
  | [v] => Some (Single v)
  | _ => Some (Many (map Entry values))
  end.

End FormDataObject.

(** * Properties *)

Import JsString JsNumber Regex Validation Vocabulary.

(** ** Strings and numbers *)

Lemma split_without_separator (sep : ascii) (s : string) :
  occurs sep s = false -> split sep s = [s].
Proof.
  induction s as [|c s IH]; simpl; intros H.
  - reflexivity.
  - apply orb_false_iff in H. destruct H as [Hc Hs].
    rewrite Hc, (IH Hs). reflexivity.
Qed.

Lemma split_at_separator (sep : ascii) (s t : string) :
  occurs sep s = false -> split sep (s ++ String sep t) = s :: split sep t.
Proof.
  induction s as [|c s IH]; simpl; intros H.
  - rewrite Ascii.eqb_refl. reflexivity.
  - apply orb_false_iff in H. destruct H as [Hc Hs].
    rewrite Hc, (IH Hs). reflexivity.
Qed.

Lemma split_nonempty (sep : ascii) (s : string) : split sep s <> [].
Proof.
  destruct s as [|c s]; simpl; [discriminate|].
  destruct (Ascii.eqb c sep); [discriminate|].
  destruct (split sep s); discriminate.
Qed.

Lemma pop_cons {A : Type} (x : A) (l : list A) :
  l <> [] -> pop (x :: l) = pop l.
Proof.
  unfold pop. destruct l as [|y l]; [congruence|reflexivity].
Qed.

Lemma split_suffix_last (sep : ascii) (s t : string) :
  occurs sep t = false ->
  exists first rest,
    split sep (s ++ String sep t) = first :: rest /\ rest <> [] /\ pop rest = Some t.
Proof.
  intros Ht. induction s as [|c s IH]; simpl.
  - rewrite Ascii.eqb_refl, (split_without_separator _ _ Ht).
    exists "", [t]. repeat split; discriminate.
  - destruct IH as (first & rest & E & Hrest & Hpop). rewrite E.
    destruct (Ascii.eqb c sep).
    + exists "", (first :: rest). repeat split; [discriminate|].
      rewrite pop_cons; assumption.
    + exists (String c first), rest. repeat split; assumption.
Qed.

Lemma pop_split_suffix (sep : ascii) (s t : string) :
  occurs sep t = false -> pop (split sep (s ++ String sep t)) = Some t.
Proof.
  intros Ht. destruct (split_suffix_last sep s t Ht) as (first & rest & E & Hrest & Hpop).
  rewrite E, pop_cons; assumption.
Qed.

Lemma digitsValue_acc (d : Decimal.uint) (acc : positive) :
  digitsValue 10 (NilEmpty.string_of_uint d) (Z.pos acc)
  = Z.pos (Pos.of_uint_acc d acc).
Proof.
  revert acc.
  induction d as [|d IH|d IH|d IH|d IH|d IH|d IH|d IH|d IH|d IH|d IH];
    intros acc; [reflexivity|..];
    cbn [NilEmpty.string_of_uint digitsValue Pos.of_uint_acc];
    match goal with
    | |- context [digitValue 10 ?c] =>
        let v := eval vm_compute in (digitValue 10 c) in
        change (digitValue 10 c) with v; cbv iota
    end;
    rewrite <- IH; f_equal; lia.
Qed.

Lemma digitsValue_uint (d : Decimal.uint) :
  digitsValue 10 (NilEmpty.string_of_uint d) 0 = Z.of_N (Pos.of_uint d).
Proof.
  induction d as [|d IH|d IH|d IH|d IH|d IH|d IH|d IH|d IH|d IH|d IH];
    [reflexivity|exact IH|..];
    cbn [NilEmpty.string_of_uint digitsValue Pos.of_uint];
    match goal with
    | |- context [digitValue 10 ?c] =>
        let v := eval vm_compute in (digitValue 10 c) in
        change (digitValue 10 c) with v; cbv iota
    end;
    cbn [Z.mul Z.add Z.of_N]; apply digitsValue_acc.
Qed.

Lemma parseInt_numeral (d : Decimal.uint) :
  d <> Decimal.Nil ->
  parseInt (NilEmpty.string_of_uint d)
  = Int (1 * digitsValue 10 (NilEmpty.string_of_uint d) 0).
Proof.
  intros Hd. destruct d as [|d|d|d|d|d|d|d|d|d|d];
    [congruence| |reflexivity..].
  destruct d; reflexivity.
Qed.

Lemma parseInt_negative_numeral (d : Decimal.uint) :
  d <> Decimal.Nil ->
  parseInt (String "-" (NilEmpty.string_of_uint d))
  = Int (-1 * digitsValue 10 (NilEmpty.string_of_uint d) 0).
Proof.
  intros Hd. destruct d as [|d|d|d|d|d|d|d|d|d|d];
    [congruence| |reflexivity..].
  destruct d; reflexivity.
Qed.

Lemma numeral_nonnil (d : Decimal.uint) :
  d <> Decimal.Nil -> NilZero.string_of_uint d = NilEmpty.string_of_uint d.
Proof. destruct d; [congruence|reflexivity..]. Qed.

(** [parseInt] reads back the decimal numeral of every integer. *)
Lemma parseInt_decimal (z : Z) : parseInt (decimal z) = Int z.
Proof.
  destruct z as [|p|p]; [reflexivity|..]; unfold decimal; simpl Z.to_int;
    cbn [NilZero.string_of_int];
    rewrite (numeral_nonnil _ (Unsigned.to_uint_nonnil p)).
  - rewrite (parseInt_numeral _ (Unsigned.to_uint_nonnil p)), digitsValue_uint,
      Unsigned.of_to. reflexivity.
  - rewrite (parseInt_negative_numeral _ (Unsigned.to_uint_nonnil p)),
      digitsValue_uint, Unsigned.of_to. reflexivity.
Qed.

Lemma trimEnd_idempotent (s : string) : trimEnd (trimEnd s) = trimEnd s.
Proof.
  induction s as [|c s IH]; [reflexivity|].
  simpl. destruct (trimEnd s) as [|d t] eqn:E.
  - destruct (isWhiteSpace c) eqn:W; simpl; [reflexivity|].
    rewrite W. reflexivity.
  - cbn [trimEnd] in IH |- *. rewrite IH. reflexivity.
Qed.

Lemma trimStart_head (s : string) :
  trimStart s = "" \/
  exists c t, trimStart s = String c t /\ isWhiteSpace c = false.
Proof.
  induction s as [|c s IH]; simpl; [left; reflexivity|].
  destruct (isWhiteSpace c) eqn:W; [exact IH|].
  right. exists c, s. split; [reflexivity|exact W].
Qed.

Lemma trimEnd_keeps_head (c : ascii) (s : string) :
  isWhiteSpace c = false -> exists t, trimEnd (String c s) = String c t.
Proof.
  intros W. simpl. destruct (trimEnd s) as [|d t].
  - rewrite W. exists "". reflexivity.
  - exists (String d t). reflexivity.
Qed.

(** Trimming what is already trimmed changes nothing. *)
Lemma trim_idempotent (s : string) : trim (trim s) = trim s.
Proof.
  unfold trim. destruct (trimStart_head s) as [E | (c & t & E & W)]; rewrite E.
  - reflexivity.
  - destruct (trimEnd_keeps_head c t W) as [t' E']. rewrite E'.
    cbn [trimStart]. rewrite W, <- E'. apply trimEnd_idempotent.
Qed.

(** ** The chain evaluator *)

(** The registry resolves nothing but its ten names and the names of the
    members of [Object.prototype]. *)
Lemma validators_absent (validatorName : string) :
  ~ In validatorName builtinNames ->
  objectPrototype validatorName = None ->
  validators validatorName = Absent.
Proof.
  intros Hbuiltin Hproto. unfold validators, inheritedOrAbsent.
  rewrite Hproto.
  repeat match goal with
         | |- context [String.eqb validatorName ?n] =>
             destruct (String.eqb_spec validatorName n) as [->|_];
             [exfalso; apply Hbuiltin; simpl; tauto|]
         end.
  reflexivity.
Qed.

Section Chain.

Context (P : Platform) (doc : Document) (value : string) (field : Control).

Lemma evaluateChain_continues (pre rest : list string) :
  forallb (continues P doc value field) pre = true ->
  evaluateChain P doc value field (pre ++ rest)
  = evaluateChain P doc value field rest.
Proof.
  induction pre as [|rule pre IH]; simpl; intros H; [reflexivity|].
  apply andb_true_iff in H. destruct H as [Hrule Hpre].
  unfold continues in Hrule.
  destruct (evaluateRule P doc value field rule) as [[result|e]|];
    [|discriminate|]; [rewrite Hrule|]; exact (IH Hpre).
Qed.

Lemma evaluateChain_fails_here (rule : string) (result : ValidationResult)
  (post : list string) :
  evaluateRule P doc value field rule = Some (Normal result) ->
  valid result = false ->
  evaluateChain P doc value field (rule :: post) = Normal (false, message result).
Proof. intros E V. simpl. rewrite E, V. reflexivity. Qed.

(** A rule whose name the registry does not resolve is skipped wherever it
    stands in the chain. *)
Lemma absent_rule_is_skipped (pre post : list string) (rule : string) :
  validators (hd "" (split ":" rule)) = Absent ->
  evaluateChain P doc value field (pre ++ rule :: post)
  = evaluateChain P doc value field (pre ++ post).
Proof.
  intros A.
  assert (E : evaluateRule P doc value field rule = None)
    by (unfold evaluateRule; rewrite A; reflexivity).
  induction pre as [|r pre IH]; simpl.
  - rewrite E. reflexivity.
  - rewrite IH. reflexivity.
Qed.

End Chain.

(** C1. The chain is evaluated from left to right and stops at the first
    rule that fails: when every rule before [rule] is skipped or passes and
    [rule] returns a result whose [valid] is false, the evaluation ends
    invalid with the message of that result, whatever rules follow. *)
Theorem chain_stops_at_first_failing_rule
  (P : Platform) (doc : Document) (value : string) (field : Control)
  (pre : list string) (rule : string) (result : ValidationResult) :
  forallb (continues P doc value field) pre = true ->
  evaluateRule P doc value field rule = Some (Normal result) ->
  valid result = false ->
  forall post : list string,
    evaluateChain P doc value field (pre ++ rule :: post)
    = Normal (false, message result).
Proof.
  intros Hpre Hrule Hvalid post.
  rewrite (evaluateChain_continues P doc value field pre _ Hpre).
  exact (evaluateChain_fails_here P doc value field rule result post Hrule Hvalid).
Qed.

Lemma chain_stops_at_first_failing_rule_witness :
  evaluateChain samplePlatform [] "ab" HTMLInputElement
    (["required"; "bogus"] ++ "minLength:8" :: ["email"; "phone"])
  = Normal (false, Some "Must be at least 8 characters").
Proof.
  apply (chain_stops_at_first_failing_rule samplePlatform [] "ab" HTMLInputElement
           ["required"; "bogus"] "minLength:8"
           (fails "Must be at least 8 characters"));
    reflexivity.
Defined.

(** The same on a field: what [validateField] renders and returns. *)
Lemma validateField_stops_at_first_failing_rule
  (P : Platform) (doc : Document) (config : Options) (f : Field)
  (pre post : list string) (rule : string) (result : ValidationResult) :
  split "|" (validate f) = (pre ++ rule :: post)%list ->
  forallb (continues P doc (trim (value f)) (control f)) pre = true ->
  evaluateRule P doc (trim (value f)) (control f) rule = Some (Normal result) ->
  valid result = false ->
  validateField P doc f config
  = Normal (updateFieldUI f false (message result) config, false).
Proof.
  intros Hsplit Hpre Hrule Hvalid. unfold validateField.
  rewrite Hsplit, (evaluateChain_continues _ _ _ _ pre _ Hpre),
    (evaluateChain_fails_here _ _ _ _ rule result post Hrule Hvalid).
  reflexivity.
Qed.

(** C3. A rule named after a member of [Object.prototype] is not one of the
    ten validators, yet the registry resolves it: with the value [abc] the
    chain [required|toString] ends invalid with an undefined message where
    [required] alone passes, and the chain [__proto__] raises. *)
Theorem inherited_name_breaks_chain (P : Platform) (doc : Document) :
  validators "toString" = Inherited toString /\
  evaluateChain P doc "abc" HTMLInputElement (split "|" "required|toString")
  = Normal (false, None) /\
  evaluateChain P doc "abc" HTMLInputElement (split "|" "required")
  = Normal (true, Some "") /\
  evaluateChain P doc "abc" HTMLInputElement (split "|" "__proto__")
  = Throw "TypeError: validator.call is not a function".
Proof. repeat split; reflexivity. Qed.

(** ** The validators *)

(** C2, as the code has it. Every validator but [required] and [match]
    returns [{ valid: true }] on the empty value, whatever its arguments;
    [match] has no such guard and passes on the empty value exactly when
    the target exists and its value is the empty string. *)
Theorem empty_value_passes
  (P : Platform) (doc : Document) (v : Validator) (args : list Arg) :
  (v <> required -> v <> match_ -> call P doc v "" args = Normal passes) /\
  (exists result,
     call P doc match_ "" args = Normal result /\
     (valid result = true
      <-> getElementById doc (argToString (arg args 0)) = Some (Some ""))).
Proof.
  split.
  - intros Hrequired Hmatch. destruct v; try reflexivity; congruence.
  - cbn [call]. eexists. split; [reflexivity|].
    unfold validateMatch.
    destruct (getElementById doc (argToString (arg args 0))) as [[t|]|]; simpl.
    + destruct t as [|c t]; simpl; split; congruence.
    + split; congruence.
    + split; congruence.
Qed.

Lemma empty_value_passes_witness :
  call samplePlatform [] password "" [Param "strong"; FieldArg HTMLInputElement]
  = Normal passes.
Proof.
  apply (proj1 (empty_value_passes samplePlatform [] password
                  [Param "strong"; FieldArg HTMLInputElement]));
    discriminate.
Defined.

(** C2, as stated, fails: [match] on the empty value against a target whose
    value is [abc] returns [valid] false. *)
Lemma empty_value_fails_match :
  ~ (forall (P : Platform) (doc : Document) (v : Validator) (args : list Arg),
       v <> required ->
       exists result, call P doc v "" args = Normal result /\ valid result = true).
Proof.
  intros H.
  destruct (H samplePlatform [("password", Some "abc")] match_
              [Param "password"; FieldArg HTMLInputElement])
    as (result & E & V); [discriminate|].
  cbv in E. injection E as <-. discriminate V.
Qed.

(** C4. [match] always returns a result. When no element has the target
    id the result is invalid with the message [Configuration error], a
    message it gives in no other case. *)
Theorem match_without_target_fails_safe
  (P : Platform) (doc : Document) (value : string) (args : list Arg) :
  (getElementById doc (argToString (arg args 0)) = None ->
   call P doc match_ value args = Normal (fails "Configuration error")) /\
  (exists result,
     call P doc match_ value args = Normal result /\
     (message result = Some "Configuration error"
      <-> getElementById doc (argToString (arg args 0)) = None)).
Proof.
  cbn [call]. unfold validateMatch. split.
  - intros E. rewrite E. reflexivity.
  - eexists. split; [reflexivity|].
    destruct (getElementById doc (argToString (arg args 0))) as [[t|]|].
    + destruct (String.eqb value t); simpl; split; discriminate.
    + simpl; split; discriminate.
    + split; reflexivity.
Qed.

Lemma match_without_target_fails_safe_witness :
  call samplePlatform [("password", Some "abc")] match_ "abc"
    [Param "confirm"; FieldArg HTMLInputElement]
  = Normal (fails "Configuration error").
Proof.
  apply (proj1 (match_without_target_fails_safe samplePlatform
                  [("password", Some "abc")] "abc"
                  [Param "confirm"; FieldArg HTMLInputElement])).
  reflexivity.
Defined.

Lemma truthy_nonempty (s : string) : s <> "" -> negb (truthy s) = false.
Proof. destruct s; [congruence|reflexivity]. Qed.

(** [minLength] with a parameter [parseInt] reads as the integer [N]. *)
Lemma minLength_with_parsed_parameter (value : string) (parameter : Arg) (N : Z) :
  value <> "" ->
  parseInt (argToString parameter) = Int N ->
  validateMinLength value parameter
  = verdict (N <=? len value) ("Must be at least " ++ decimal N ++ " characters").
Proof.
  intros Hvalue Hparse. unfold validateMinLength.
  rewrite (truthy_nonempty _ Hvalue), Hparse. reflexivity.
Qed.

(** C6. For a value that is not empty and a parameter that is the numeral
    of a safe integer [N], [minLength] returns [valid] true exactly when
    the length of the value is at least [N], and on failure the message
    [Must be at least N characters]; so [minLength:8] refuses [abcdefg]
    with that message and accepts [abcdefgh]. *)
Theorem minLength_compares_length (value : string) (N : Z) :
  value <> "" ->
  safeInteger N ->
  validateMinLength value (Param (decimal N))
  = {| valid := N <=? len value;
       message := Some (if N <=? len value then ""
                        else "Must be at least " ++ decimal N ++ " characters") |}.
Proof.
  intros Hvalue _.
  exact (minLength_with_parsed_parameter value (Param (decimal N)) N Hvalue
           (parseInt_decimal N)).
Qed.

Lemma minLength_compares_length_witness :
  validateMinLength "abcdefg" (Param "8") = fails "Must be at least 8 characters" /\
  validateMinLength "abcdefgh" (Param "8") = {| valid := true; message := Some "" |}.
Proof.
  split.
  - apply (minLength_compares_length "abcdefg" 8); [discriminate|].
    unfold safeInteger. lia.
  - apply (minLength_compares_length "abcdefgh" 8); [discriminate|].
    unfold safeInteger. lia.
Defined.

(** C9. For a value that is not empty, a [minLength] or [maxLength]
    parameter that [parseInt] reads as [NaN] makes the rule fail, with
    [NaN] in the message. *)
Theorem length_rule_with_NaN_parameter_fails (value : string) (parameter : Arg) :
  value <> "" ->
  parseInt (argToString parameter) = NaN ->
  validateMinLength value parameter = fails "Must be at least NaN characters" /\
  validateMaxLength value parameter = fails "Must not exceed NaN characters".
Proof.
  intros Hvalue Hnan. unfold validateMinLength, validateMaxLength.
  rewrite (truthy_nonempty _ Hvalue), Hnan. split; reflexivity.
Qed.

Lemma length_rule_with_NaN_parameter_fails_witness :
  validateMinLength "abc" (Param "eight") = fails "Must be at least NaN characters" /\
  validateMaxLength "abc" (Param "eight") = fails "Must not exceed NaN characters".
Proof.
  apply (length_rule_with_NaN_parameter_fails "abc" (Param "eight"));
    [discriminate|reflexivity].
Defined.

(** A strength that names neither a tier nor a member of
    [Object.prototype] falls back to the medium tier. *)
Lemma password_falls_back_to_medium (value strength : string) :
  rules strength = Absent ->
  validatePassword value (Param strength) = validatePassword value (Param "medium").
Proof.
  intros A. unfold validatePassword. cbn [argToString]. rewrite A. reflexivity.
Qed.

(** C10. The strength [constructor] is outside weak, medium and strong, yet
    [password:constructor] does not behave as [password:medium]: on
    [Abcdefg1], which the medium tier accepts, it raises. *)
Theorem password_inherited_strength_raises :
  rules "constructor" = Inherited constructor /\
  validatePassword "Abcdefg1" (Param "constructor")
  = Throw "TypeError: Cannot read properties of undefined (reading 'test')" /\
  validatePassword "Abcdefg1" (Param "medium")
  = Normal {| valid := true; message := Some "" |}.
Proof. repeat split; vm_compute; reflexivity. Qed.

(** ** [match] through [validateField] *)

(** The chain that is the one rule [match:id]. *)
Lemma evaluateChain_match (P : Platform) (doc : Document) (value : string)
  (field : Control) (id : string) :
  occurs ":" id = false ->
  occurs "|" id = false ->
  evaluateChain P doc value field (split "|" ("match:" ++ id))
  = let result := validateMatch doc value (Param id) in
    if valid result then Normal (true, Some "") else Normal (false, message result).
Proof.
  intros Hcolon Hbar.
  rewrite (split_without_separator "|" ("match:" ++ id)) by (simpl; exact Hbar).
  cbn [evaluateChain]. unfold evaluateRule.
  change ("match:" ++ id) with ("match" ++ String ":" id).
  rewrite (split_at_separator ":" "match" id eq_refl),
    (split_without_separator ":" id Hcolon).
  cbn [hd tl map app]. change (validators "match") with (Own match_).
  reflexivity.
Qed.

(** A field bound to [match:id] where no element has that id is rendered
    invalid with [Configuration error]; [validateField] returns false. *)
Lemma validateField_match_without_target
  (P : Platform) (doc : Document) (config : Options) (f : Field) (id : string) :
  validate f = "match:" ++ id ->
  occurs ":" id = false ->
  occurs "|" id = false ->
  getElementById doc id = None ->
  validateField P doc f config
  = Normal (updateFieldUI f false (Some "Configuration error") config, false).
Proof.
  intros Hvalidate Hcolon Hbar Htarget. unfold validateField.
  rewrite Hvalidate, (evaluateChain_match P doc _ _ id Hcolon Hbar).
  unfold validateMatch. cbn [argToString]. rewrite Htarget. reflexivity.
Qed.

(** C8, as the code has it. A field whose chain is the one rule [match:id]
    passes exactly when its trimmed value equals the value of the target as
    it stands, untrimmed.  So a target value with white space at either end
    is never matched, while white space around the value of the evaluated
    field is ignored: a field whose trimmed value is the target's value
    passes. *)
Theorem match_compares_trimmed_with_raw
  (P : Platform) (doc : Document) (config : Options) (f : Field)
  (id t : string) :
  validate f = "match:" ++ id ->
  occurs ":" id = false ->
  occurs "|" id = false ->
  getElementById doc id = Some (Some t) ->
  returns P doc config (String.eqb (trim (value f)) t) f /\
  (trim t <> t -> returns P doc config false f) /\
  (trim (value f) = t -> returns P doc config true f).
Proof.
  intros Hvalidate Hcolon Hbar Htarget.
  assert (Hreturns : returns P doc config (String.eqb (trim (value f)) t) f).
  { unfold returns, validateField.
    rewrite Hvalidate, (evaluateChain_match P doc _ _ id Hcolon Hbar).
    unfold validateMatch. cbn [argToString]. rewrite Htarget.
    cbn [valid verdict message].
    destruct (String.eqb (trim (value f)) t); eexists; reflexivity. }
  split; [exact Hreturns|]. split.
  - intros Hraw.
    destruct (String.eqb (trim (value f)) t) eqn:E; [|exact Hreturns].
    apply String.eqb_eq in E. exfalso. apply Hraw.
    rewrite <- E. apply trim_idempotent.
  - intros E. apply String.eqb_eq in E. rewrite E in Hreturns. exact Hreturns.
Qed.

Lemma match_compares_trimmed_with_raw_witness :
  returns samplePlatform [("password", Some "secret ")] noOptions false
    (input "secret " "match:password") /\
  returns samplePlatform [("password", Some "secret")] noOptions true
    (input " secret " "match:password").
Proof.
  split.
  - apply (proj1 (match_compares_trimmed_with_raw samplePlatform
                    [("password", Some "secret ")] noOptions
                    (input "secret " "match:password") "password" "secret "
                    eq_refl eq_refl eq_refl eq_refl)).
  - apply (proj2 (proj2 (match_compares_trimmed_with_raw samplePlatform
                    [("password", Some "secret")] noOptions
                    (input " secret " "match:password") "password" "secret"
                    eq_refl eq_refl eq_refl eq_refl))).
    reflexivity.
Defined.

(** C8, as stated, fails: the field holding [ secret ], with a space at
    either end, and the target holding [secret] differ by leading and
    trailing white space only, and the field matches. *)
Lemma match_passes_with_padded_field :
  ~ (forall (P : Platform) (doc : Document) (config : Options) (f : Field)
            (id t : string),
       validate f = "match:" ++ id ->
       occurs ":" id = false ->
       occurs "|" id = false ->
       getElementById doc id = Some (Some t) ->
       value f <> t ->
       trim (value f) = trim t ->
       returns P doc config false f).
Proof.
  intros H.
  destruct (H samplePlatform [("password", Some "secret")] noOptions
              (input " secret " "match:password") "password" "secret"
              eq_refl eq_refl eq_refl eq_refl)
    as [rendered E]; [discriminate|reflexivity|].
  vm_compute in E. discriminate E.
Qed.

(** ** File validation *)

Lemma contains_suffix (before needle : string) : contains (before ++ needle) needle.
Proof.
  exists before, "". f_equal.
  induction needle as [|c n IH]; simpl; [reflexivity|now rewrite <- IH].
Qed.

Lemma extensionOf_png (stem : string) : extensionOf (stem ++ ".png") = ".png".
Proof.
  unfold extensionOf.
  rewrite (pop_split_suffix "." stem "png" eq_refl). reflexivity.
Qed.

(** C7. With no options, [validateFile] refuses a file over 10 MiB with a
    message that contains [10MB], refuses a file within that size whose
    MIME type is not on the default list with [File type not allowed], and
    accepts a file of 2 MiB and type [image/png] whose name ends in
    [.png]. *)
Theorem validateFile_defaults (file : File) :
  (10 * 1024 * 1024 < size file ->
   validateFile file noFileOptions = fails "File size must not exceed 10MB" /\
   contains "File size must not exceed 10MB" "10MB") /\
  (size file <= 10 * 1024 * 1024 ->
   includes ["image/jpeg"; "image/png"; "image/gif";
             "audio/mpeg"; "audio/wav"; "video/mp4"] (type file) = false ->
   validateFile file noFileOptions = fails "File type not allowed") /\
  (size file = 2 * 1024 * 1024 ->
   type file = "image/png" ->
   (exists stem, name file = stem ++ ".png") ->
   validateFile file noFileOptions = passes).
Proof.
  unfold validateFile.
  change (mergeFileConfig defaults noFileOptions) with defaults.
  cbn [maxSize allowedTypes allowedExtensions defaults].
  split; [|split].
  - intros Hsize. apply Z.ltb_lt in Hsize. rewrite Hsize. split; [reflexivity|].
    exact (contains_suffix "File size must not exceed " "10MB").
  - intros Hsize Htype. apply Z.ltb_ge in Hsize. rewrite Hsize, Htype. reflexivity.
  - intros Hsize Htype [stem Hname].
    rewrite Hsize, Htype, Hname, extensionOf_png. reflexivity.
Qed.

Lemma validateFile_defaults_witness :
  validateFile {| size := 12 * 1024 * 1024; type := "audio/mpeg"; name := "set.mp3" |}
    noFileOptions = fails "File size must not exceed 10MB" /\
  validateFile {| size := 2 * 1024 * 1024; type := "application/zip"; name := "a.zip" |}
    noFileOptions = fails "File type not allowed" /\
  validateFile {| size := 2 * 1024 * 1024; type := "image/png"; name := "cover.v2.png" |}
    noFileOptions = passes.
Proof.
  split; [|split].
  - apply (proj1 (validateFile_defaults
                    {| size := 12 * 1024 * 1024; type := "audio/mpeg"; name := "set.mp3" |})).
    reflexivity.
  - apply (proj1 (proj2 (validateFile_defaults
                    {| size := 2 * 1024 * 1024; type := "application/zip"; name := "a.zip" |})));
      [discriminate|reflexivity].
  - apply (proj2 (proj2 (validateFile_defaults
                    {| size := 2 * 1024 * 1024; type := "image/png"; name := "cover.v2.png" |})));
      [reflexivity|reflexivity|].
    exists "cover.v2". reflexivity.
Defined.

(** ** Rendering *)

Lemma includes_app (a b : list string) (x : string) :
  includes (a ++ b) x = includes a x || includes b x.
Proof. unfold includes. apply existsb_app. Qed.

Lemma includes_classAdd (name : string) (classes : list string) (x : string) :
  includes (classAdd name classes) x = includes classes x || String.eqb x name.
Proof.
  unfold classAdd. destruct (includes classes name) eqn:E.
  - destruct (String.eqb x name) eqn:X; [|now rewrite orb_false_r].
    apply String.eqb_eq in X. subst x. rewrite E. reflexivity.
  - rewrite includes_app. simpl. now rewrite orb_false_r.
Qed.

Lemma includes_classRemove (names classes : list string) (x : string) :
  includes (classRemove names classes) x
  = includes classes x && negb (includes names x).
Proof.
  unfold classRemove. induction classes as [|c classes IH]; [reflexivity|].
  simpl. destruct (String.eqb x c) eqn:X.
  - apply String.eqb_eq in X. subst c.
    destruct (includes names x); simpl.
    + rewrite IH. now rewrite andb_false_r.
    + now rewrite String.eqb_refl.
  - destruct (negb (includes names c)); simpl; [rewrite X|]; exact IH.
Qed.

(** After [updateFieldUI] the field is of class [invalid] exactly when the
    evaluation failed. *)
Lemma updateFieldUI_invalid_class (field : Field) (isValid : bool)
  (errorMessage : option string) (config : Options) :
  includes (classList (updateFieldUI field isValid errorMessage config)) "invalid"
  = negb isValid.
Proof.
  unfold updateFieldUI. destruct isValid; cbn [classList negb].
  - destruct (optionTruthy (showSuccessIndicator config) && truthy (value field));
      rewrite ?includes_classAdd, includes_classRemove; simpl;
      now rewrite andb_false_r.
  - rewrite includes_classAdd. simpl. now rewrite orb_true_r.
Qed.

(** ** Submission *)

Section Submission.

Context (P : Platform) (doc : Document) (config : Options).

Lemma forEachInput_completes (form : Form) (isValid : bool) :
  forallb (completes P doc config) (inputs form) = true ->
  let loop := forEachInput P doc config form isValid in
  evaluated loop = inputs form /\
  result loop = Normal (isValid && forallb (passesField P doc config) (inputs form)) /\
  querySelectorInvalid (rendered loop) = firstInvalid P doc config form.
Proof.
  revert isValid. induction form as [|node form IH]; intros isValid H.
  - simpl. now rewrite andb_true_r.
  - destruct node as [field|classes].
    + simpl in H. apply andb_true_iff in H. destruct H as [Hfield Hrest].
      unfold completes in Hfield. cbn [forEachInput inputs firstInvalid forallb].
      unfold passesField at 1 3.
      destruct (validateField P doc field config) as [[field' ok]|e] eqn:E;
        [|discriminate].
      destruct (IH (if ok then isValid else false) Hrest) as (He & Hr & Hq).
      cbn [evaluated result rendered querySelectorInvalid hasClass].
      rewrite He, Hr, Hq. repeat split.
      * destruct ok, isValid; reflexivity.
      * unfold validateField in E.
        destruct (evaluateChain P doc (trim (value field)) (control field)
                    (split "|" (validate field))) as [[v m]|e]; [|discriminate].
        injection E as <- <-. rewrite updateFieldUI_invalid_class.
        destruct v; reflexivity.
    + cbn [forEachInput inputs firstInvalid] in *.
      destruct (IH isValid H) as (He & Hr & Hq).
      cbn [evaluated result rendered querySelectorInvalid hasClass].
      rewrite Hq. repeat split; assumption.
Qed.

Context {Data : Type} (getFormData : Form -> Data).

(** When the evaluation of no bound field raises, the handler evaluates
    every bound field in order; it dispatches [formValid] with the
    collected data if all of them pass, and otherwise dispatches nothing
    and gives the focus to the first invalid element of the form. *)
Lemma onSubmit_when_every_field_completes (options : Options) (form : Form) :
  config = mergeOptions defaultOptions options ->
  forallb (completes P doc config) (inputs form) = true ->
  let submission := onSubmit getFormData P doc options form in
  defaultPrevented submission = true /\
  validated submission = inputs form /\
  uncaught submission = None /\
  (if forallb (passesField P doc config) (inputs form)
   then formValid submission = Some (getFormData (page submission)) /\
        focused submission = None
   else formValid submission = None /\
        focused submission = firstInvalid P doc config form).
Proof.
  intros Hconfig H. unfold onSubmit. rewrite <- Hconfig.
  destruct (forEachInput_completes form true H) as (He & Hr & Hq).
  rewrite Hr. cbn [andb].
  destruct (forallb (passesField P doc config) (inputs form));
    cbn; repeat split; assumption.
Qed.

End Submission.

(** C5. The evaluation of a field can raise, and the exception leaves the
    loop of the submit handler: with a first field bound to
    [password:constructor] holding [Abcdefg1] and a second, empty field
    bound to [required], only the first field is evaluated, the second is
    left unrendered, no [formValid] is dispatched and no element receives
    the focus. *)
Theorem onSubmit_exception_skips_remaining_fields
  (P : Platform) (doc : Document) (Data : Type) (getFormData : Form -> Data) :
  let first := input "Abcdefg1" "password:constructor" in
  let second := input "" "required" in
  let form := [Bound first; Bound second] in
  let submission := onSubmit getFormData P doc noOptions form in
  inputs form = [first; second] /\
  validated submission = [first] /\
  page submission = form /\
  formValid submission = None /\
  focused submission = None /\
  uncaught submission
  = Some "TypeError: Cannot read properties of undefined (reading 'test')".
Proof. repeat split; reflexivity. Qed.

(** The form of the specification: of three bound fields the second fails;
    all three are evaluated, nothing is dispatched, the focus goes to the
    second. *)
Example onSubmit_three_fields :
  let form := [Bound (input "ada@example.org" "required|email");
               Bound (input "12345" "required|phone");
               Bound (input "Abcdefg1" "password:medium")] in
  let submission := onSubmit (fun form => List.length form) samplePlatform [] noOptions form in
  validated submission = inputs form /\
  formValid submission = None /\
  focused submission = Some 1%nat /\
  uncaught submission = None.
Proof. vm_compute. repeat split; reflexivity. Qed.

(** ** The cases of the specification, run *)

Example trim_example : trim "  ab c	 " = "ab c".
Proof. reflexivity. Qed.

Example split_examples :
  split ":" "number:0:100" = ["number"; "0"; "100"] /\
  split "|" "required|email" = ["required"; "email"] /\
  split "|" "a|" = ["a"; ""] /\
  split "|" "" = [""].
Proof. repeat split; reflexivity. Qed.

Example parseInt_examples :
  parseInt "8" = Int 8 /\
  parseInt " -12px" = Int (-12) /\
  parseInt "0x1f" = Int 31 /\
  parseInt "abc" = NaN /\
  parseInt "" = NaN /\
  parseInt "[object HTMLInputElement]" = NaN /\
  numberToString (Int (-7)) = "-7" /\
  numberToString (Int 0) = "0".
Proof. repeat split; reflexivity. Qed.

Example email_examples :
  valid (validateEmail "ada@example.org") = true /\
  valid (validateEmail "ada@example") = false /\
  valid (validateEmail "ada lovelace@example.org") = false /\
  valid (validateEmail "ada@@example.org") = false /\
  message (validateEmail "ada") = Some "Please enter a valid email address".
Proof. vm_compute. repeat split; reflexivity. Qed.

Example phone_examples :
  valid (validatePhone "+1 (555) 010-9999") = true /\
  valid (validatePhone "555-0100") = false.
Proof. vm_compute. split; reflexivity. Qed.

Example password_examples :
  validatePassword "abcdefg1" (Param "medium")
  = Normal (fails "Password must be 8+ characters with uppercase, lowercase, and number") /\
  validatePassword "Abcdefg1" (Param "medium")
  = Normal {| valid := true; message := Some "" |} /\
  validatePassword "Abcdefg1" (Param "strong")
  = Normal (fails "Password must be 12+ characters with uppercase, lowercase, number, and special character") /\
  validatePassword "Abcdefg1" (FieldArg HTMLInputElement)
  = Normal {| valid := true; message := Some "" |} /\
  validatePassword "abcde" (Param "weak")
  = Normal (fails "Password must be at least 6 characters").
Proof. vm_compute. repeat split; reflexivity. Qed.

Example number_examples :
  validateNumber samplePlatform "150" (Param "0") (Param "100")
  = fails "Must not exceed 100" /\
  validateNumber samplePlatform "50" (Param "0") (Param "100") = passes.
Proof. vm_compute. split; reflexivity. Qed.

Example match_examples :
  validateMatch [("confirmPassword", Some "secret")] "secret" (Param "confirmPassword")
  = {| valid := true; message := Some "" |} /\
  validateMatch [("confirmPassword", Some "other")] "secret" (Param "confirmPassword")
  = fails "Fields do not match".
Proof. vm_compute. split; reflexivity. Qed.

Example required_examples :
  validateRequired "" (Param "Email") = fails "Email is required" /\
  validateRequired "" (Param "") = fails "This field is required" /\
  validateRequired "x" (Param "Email") = {| valid := true; message := Some "" |}.
Proof. vm_compute. repeat split; reflexivity. Qed.

Example validateField_example :
  validateField samplePlatform [] (input " ab " "required|minLength:8|email") defaultOptions
  = Normal ({| control := HTMLInputElement;
               value := " ab ";
               validate := "required|minLength:8|email";
               classList := ["invalid"];
               ariaInvalid := Some "true";
               errorElement := Some "Must be at least 8 characters" |}, false).
Proof. vm_compute. reflexivity. Qed.

Example megabytes_examples :
  megabytes (10 * 1024 * 1024) = "10" /\
  megabytes (1536 * 1024) = "2" /\
  megabytes (5 * 1024 * 1024 + 1) = "5".
Proof. vm_compute. repeat split; reflexivity. Qed.

(** * Further properties of [validation.js] *)

Import Language Chains Listeners Sanitizer FormDataObject.

(** ** Patterns *)

Lemma append_empty_r (s : string) : s ++ "" = s.
Proof. induction s as [|c s IH]; simpl; [reflexivity|now rewrite IH]. Qed.

Lemma append_associative (s t u : string) : (s ++ t) ++ u = s ++ (t ++ u).
Proof. induction s as [|c s IH]; simpl; [reflexivity|now rewrite IH]. Qed.

Lemma append_is_empty (s t : string) : s ++ t = "" -> s = "" /\ t = "".
Proof. destruct s; simpl; [intros ->; split; reflexivity|discriminate]. Qed.

Lemma append_is_cons (u v : string) (c : ascii) (s : string) :
  u ++ v = String c s ->
  (u = "" /\ v = String c s) \/ (exists u', u = String c u' /\ s = u' ++ v).
Proof.
  destruct u as [|d u]; simpl; intros H.
  - left. split; [reflexivity|exact H].
  - injection H as -> <-. right. exists u. split; reflexivity.
Qed.

Lemma length_append (s t : string) :
  String.length (s ++ t) = (String.length s + String.length t)%nat.
Proof. induction s as [|c s IH]; simpl; [reflexivity|now rewrite IH]. Qed.

Lemma lang_nullable (r : regex) (s : string) :
  lang r s -> s = "" -> nullable r = true.
Proof.
  induction 1 as [|p c Hp|r s u v _ IHr _ IHs|r s u _ IH|r s u _ IH
                 |r s u _ IHr _ IHs|r|r u v _ _ _ _]; intros E; simpl;
    try reflexivity; try discriminate.
  - apply append_is_empty in E. destruct E as [-> ->].
    now rewrite IHr, IHs.
  - now rewrite IH.
  - rewrite IH by assumption. apply orb_true_r.
  - now rewrite IHr, IHs.
Qed.

Lemma nullable_lang (r : regex) : nullable r = true -> lang r "".
Proof.
  induction r as [| |p|r IHr s IHs|r IHr s IHs|r IHr s IHs|r IH]; simpl; intros H;
    try discriminate.
  - constructor.
  - apply andb_true_iff in H. destruct H as [Hr Hs].
    change "" with ("" ++ ""). constructor; auto.
  - apply orb_true_iff in H. destruct H as [H|H];
      [apply lang_Or_l|apply lang_Or_r]; auto.
  - apply andb_true_iff in H. destruct H as [Hr Hs]. constructor; auto.
  - constructor.
Qed.

Lemma deriv_sound (c : ascii) (r : regex) (s : string) :
  lang (deriv c r) s -> lang r (String c s).
Proof.
  revert s.
  induction r as [| |p|r IHr t IHt|r IHr t IHt|r IHr t IHt|r IH]; simpl; intros s H.
  - inversion H.
  - inversion H.
  - destruct (p c) eqn:Hp; inversion H; subst. now constructor.
  - destruct (nullable r) eqn:N.
    + inversion H as [| | |? ? ? H1|? ? ? H1| | |]; subst.
      * inversion H1; subst.
        change (String c (u ++ v)) with (String c u ++ v). constructor; auto.
      * change (String c s) with ("" ++ String c s).
        constructor; [now apply nullable_lang|auto].
    + inversion H; subst.
      change (String c (u ++ v)) with (String c u ++ v). constructor; auto.
  - inversion H; subst; [apply lang_Or_l|apply lang_Or_r]; auto.
  - inversion H; subst. constructor; auto.
  - inversion H; subst.
    change (String c (u ++ v)) with (String c u ++ v). constructor; auto.
Qed.

Lemma deriv_complete (r : regex) (t : string) :
  lang r t -> forall c s, t = String c s -> lang (deriv c r) s.
Proof.
  induction 1 as [|p d Hp|r s u v Hu IHr Hv IHs|r s u _ IH|r s u _ IH
                 |r s u _ IHr _ IHs|r|r u v Hu IHr Hv IHs]; intros c w E; simpl.
  - discriminate.
  - injection E as -> <-. rewrite Hp. constructor.
  - apply append_is_cons in E. destruct E as [[-> ->]|(u' & -> & ->)].
    + rewrite (lang_nullable r "" Hu eq_refl). apply lang_Or_r. now apply IHs.
    + destruct (nullable r);
        [apply lang_Or_l|]; constructor; auto.
  - apply lang_Or_l. now apply IH.
  - apply lang_Or_r. now apply IH.
  - constructor; auto.
  - discriminate.
  - apply append_is_cons in E. destruct E as [[-> ->]|(u' & -> & ->)].
    + now apply IHs.
    + constructor; auto.
Qed.

(** The matcher decides the language of the pattern. *)
Lemma fullMatch_lang (r : regex) (s : string) :
  fullMatch r s = true <-> lang r s.
Proof.
  revert r. induction s as [|c s IH]; intros r; simpl.
  - split; [apply nullable_lang|intros H; exact (lang_nullable r "" H eq_refl)].
  - rewrite IH. split; [apply deriv_sound|].
    intros H. exact (deriv_complete r _ H c s eq_refl).
Qed.

Lemma allChars_append (p : ascii -> bool) (s t : string) :
  allChars p (s ++ t) = allChars p s && allChars p t.
Proof.
  induction s as [|c s IH]; simpl; [reflexivity|].
  now rewrite IH, andb_assoc.
Qed.

Lemma someChar_append (p : ascii -> bool) (s t : string) :
  someChar p (s ++ t) = someChar p s || someChar p t.
Proof.
  induction s as [|c s IH]; simpl; [reflexivity|].
  now rewrite IH, orb_assoc.
Qed.

Lemma someChar_split (p : ascii -> bool) (s : string) :
  someChar p s = true <-> exists a c b, s = a ++ String c b /\ p c = true.
Proof.
  split.
  - induction s as [|c s IH]; simpl; [discriminate|].
    destruct (p c) eqn:Hp; simpl.
    + intros _. exists "", c, s. split; [reflexivity|exact Hp].
    + intros H. destruct (IH H) as (a & d & b & -> & Hd).
      exists (String c a), d, b. split; [reflexivity|exact Hd].
  - intros (a & c & b & -> & Hp). rewrite someChar_append. simpl.
    rewrite Hp. apply orb_true_r.
Qed.

Lemma lang_Both_iff (r s : regex) (u : string) :
  lang (Both r s) u <-> lang r u /\ lang s u.
Proof.
  split; [intros H; inversion H; subst; split; assumption|].
  intros [Hr Hs]. now constructor.
Qed.

Lemma lang_Seq_iff (r s : regex) (w : string) :
  lang (Seq r s) w <-> exists u v, w = u ++ v /\ lang r u /\ lang s v.
Proof.
  split.
  - intros H. inversion H; subst. exists u, v. repeat split; assumption.
  - intros (u & v & -> & Hr & Hs). now constructor.
Qed.

Lemma lang_Class_iff (p : ascii -> bool) (w : string) :
  lang (Class p) w <-> exists c, w = String c "" /\ p c = true.
Proof.
  split.
  - intros H. inversion H; subst. exists c. split; [reflexivity|assumption].
  - intros (c & -> & Hp). now constructor.
Qed.

Lemma lang_Star_Class (p : ascii -> bool) (s : string) :
  lang (Star (Class p)) s <-> allChars p s = true.
Proof.
  split.
  - intros H. remember (Star (Class p)) as r eqn:E.
    induction H as [| | | | | | |r u v Hu _ Hv IH]; try discriminate.
    + reflexivity.
    + injection E as ->. rewrite allChars_append, (IH eq_refl).
      inversion Hu; subst. simpl. rewrite H0. reflexivity.
  - induction s as [|c s IH]; simpl; intros H.
    + constructor.
    + apply andb_true_iff in H. destruct H as [Hc Hs].
      change (String c s) with (String c "" ++ s).
      constructor; [now constructor|auto].
Qed.

Lemma lang_anything (s : string) : lang anything s.
Proof.
  apply lang_Star_Class. induction s as [|c s IH]; [reflexivity|exact IH].
Qed.

Lemma lang_plus_Class (p : ascii -> bool) (s : string) :
  lang (plus (Class p)) s <-> s <> "" /\ allChars p s = true.
Proof.
  unfold plus. rewrite lang_Seq_iff. split.
  - intros (u & v & -> & Hu & Hv). apply lang_Class_iff in Hu.
    destruct Hu as (c & -> & Hp). apply lang_Star_Class in Hv.
    split; [discriminate|]. simpl. now rewrite Hp, Hv.
  - intros [Hs Hall]. destruct s as [|c s]; [congruence|].
    simpl in Hall. apply andb_true_iff in Hall. destruct Hall as [Hc Hrest].
    exists (String c ""), s. repeat split.
    + now constructor.
    + now apply lang_Star_Class.
Qed.

Lemma lang_atLeast_Class (n : nat) (p : ascii -> bool) (s : string) :
  lang (atLeast n (Class p)) s
  <-> (n <= String.length s)%nat /\ allChars p s = true.
Proof.
  revert s. induction n as [|n IH]; intros s; simpl.
  - rewrite lang_Star_Class. split; [intros H; split; [lia|exact H]|tauto].
  - rewrite lang_Seq_iff. split.
    + intros (u & v & -> & Hu & Hv). apply lang_Class_iff in Hu.
      destruct Hu as (c & -> & Hp). apply IH in Hv. destruct Hv as [Hn Hall].
      simpl. rewrite Hp, Hall. split; [lia|reflexivity].
    + intros [Hn Hall]. destruct s as [|c s]; simpl in Hn; [lia|].
      simpl in Hall. apply andb_true_iff in Hall. destruct Hall as [Hc Hrest].
      exists (String c ""), s. repeat split.
      * now constructor.
      * apply IH. split; [lia|exact Hrest].
Qed.

(** A look-ahead [(?=.*[q])] on an input [.] accepts throughout asks for a
    code unit of the class [q]. *)
Lemma lang_lookahead_Class (q : ascii -> bool) (s : string) :
  allChars dotChar s = true ->
  (lang (lookahead (Seq (Star dot) (Class q))) s <-> someChar q s = true).
Proof.
  intros Hdot. unfold lookahead, dot. rewrite someChar_split. split.
  - intros H. apply lang_Seq_iff in H. destruct H as (u & w & -> & Hu & _).
    apply lang_Seq_iff in Hu. destruct Hu as (a & b & -> & _ & Hb).
    apply lang_Class_iff in Hb. destruct Hb as (c & -> & Hq).
    exists a, c, w. split; [|exact Hq].
    now rewrite append_associative.
  - intros (a & c & b & -> & Hq).
    rewrite allChars_append in Hdot. apply andb_true_iff in Hdot.
    destruct Hdot as [Ha _].
    change (a ++ String c b) with (a ++ (String c "" ++ b)).
    rewrite <- append_associative.
    constructor; [|apply lang_anything].
    constructor; [now apply lang_Star_Class|now constructor].
Qed.

(** ** [validateEmail] *)

Lemma emailRegex_lang (s : string) :
  lang emailRegex s <->
  exists local domain tld,
    s = local ++ "@" ++ domain ++ "." ++ tld /\
    addressPart local /\ addressPart domain /\ addressPart tld.
Proof.
  unfold emailRegex, addressPart. fold plainChar.
  change (fun c : ascii => negb (isWhiteSpace c || Ascii.eqb c "@")) with plainChar.
  rewrite lang_Seq_iff. split.
  - intros (l & r1 & -> & Hl & H1).
    apply lang_Seq_iff in H1. destruct H1 as (at_ & r2 & -> & Hat & H2).
    apply lang_Seq_iff in H2. destruct H2 as (d & r3 & -> & Hd & H3).
    apply lang_Seq_iff in H3. destruct H3 as (dot_ & t & -> & Hdot & Ht).
    apply lang_Class_iff in Hat. destruct Hat as (c & -> & Hc).
    apply Ascii.eqb_eq in Hc. subst c.
    apply lang_Class_iff in Hdot. destruct Hdot as (c & -> & Hc).
    apply Ascii.eqb_eq in Hc. subst c.
    apply lang_plus_Class in Hl, Hd, Ht.
    exists l, d, t. repeat split; tauto.
  - intros (l & d & t & -> & Hl & Hd & Ht).
    exists l, ("@" ++ d ++ "." ++ t). split; [reflexivity|].
    split; [now apply lang_plus_Class|].
    apply lang_Seq_iff. exists "@", (d ++ "." ++ t). split; [reflexivity|].
    split; [now constructor|].
    apply lang_Seq_iff. exists d, ("." ++ t). split; [reflexivity|].
    split; [now apply lang_plus_Class|].
    apply lang_Seq_iff. exists ".", t. split; [reflexivity|].
    split; [now constructor|now apply lang_plus_Class].
Qed.

(** X1. [validateEmail] accepts the empty value and, apart from it, exactly
    the values of the form [local@domain.tld] where each of the three parts
    is not empty and holds neither white space nor [@]. *)
Theorem validateEmail_accepts_exactly (value : string) :
  valid (validateEmail value) = true <->
  value = "" \/
  exists local domain tld,
    value = local ++ "@" ++ domain ++ "." ++ tld /\
    addressPart local /\ addressPart domain /\ addressPart tld.
Proof.
  unfold validateEmail. destruct value as [|c value].
  - simpl. split; [left; reflexivity|reflexivity].
  - cbn [truthy String.eqb negb valid verdict].
    rewrite fullMatch_lang, emailRegex_lang.
    split; [intros H; right; exact H|intros [H|H]; [discriminate|exact H]].
Qed.

Lemma plain_without_whitespace (s : string) :
  allChars plainChar s = true -> someChar isWhiteSpace s = false.
Proof.
  induction s as [|c s IH]; simpl; [reflexivity|]. intros H.
  apply andb_true_iff in H. destruct H as [Hc Hs].
  unfold plainChar in Hc. apply negb_true_iff, orb_false_iff in Hc.
  destruct Hc as [Hc _]. now rewrite Hc, (IH Hs).
Qed.

(** X2. No value that holds white space, and no value without [@], is
    accepted by [validateEmail], the empty value apart. *)
Theorem validateEmail_refuses (value : string) :
  value <> "" ->
  someChar isWhiteSpace value = true \/ someChar (Ascii.eqb "@") value = false ->
  validateEmail value = fails "Please enter a valid email address".
Proof.
  intros Hvalue Hbad. unfold validateEmail. rewrite (truthy_nonempty _ Hvalue).
  destruct (fullMatch emailRegex value) eqn:M; [exfalso|reflexivity].
  apply fullMatch_lang, emailRegex_lang in M.
  destruct M as (l & d & t & -> & [_ Hl] & [_ Hd] & [_ Ht]).
  destruct Hbad as [Hws|Hat].
  - rewrite someChar_append in Hws. cbn [append someChar] in Hws.
    rewrite someChar_append in Hws. cbn [append someChar] in Hws.
    rewrite (plain_without_whitespace l Hl), (plain_without_whitespace d Hd),
      (plain_without_whitespace t Ht) in Hws.
    discriminate Hws.
  - rewrite someChar_append in Hat. cbn [append someChar] in Hat.
    rewrite Ascii.eqb_refl, orb_true_r in Hat. discriminate Hat.
Qed.

Lemma validateEmail_refuses_witness :
  validateEmail "ada lovelace@example.org" = fails "Please enter a valid email address" /\
  validateEmail "example.org" = fails "Please enter a valid email address".
Proof.
  split.
  - apply (validateEmail_refuses "ada lovelace@example.org");
      [discriminate|left; reflexivity].
  - apply (validateEmail_refuses "example.org");
      [discriminate|right; reflexivity].
Defined.

Lemma validateEmail_accepts_exactly_witness :
  valid (validateEmail "ada@example.org") = true.
Proof.
  apply (proj2 (validateEmail_accepts_exactly "ada@example.org")).
  right. exists "ada", "example", "org".
  repeat split; discriminate.
Defined.

(** ** [validatePassword] *)

Lemma medium_pattern (s : string) :
  pattern medium s = true <->
  (8 <= String.length s)%nat /\ allChars dotChar s = true /\
  someChar isLower s = true /\ someChar isUpper s = true /\
  someChar isDigit s = true.
Proof.
  cbn [pattern medium]. rewrite fullMatch_lang, !lang_Both_iff.
  unfold dot at 4. rewrite lang_atLeast_Class. fold dotChar.
  split.
  - intros (H1 & H2 & H3 & Hn & Hdot).
    apply (lang_lookahead_Class _ _ Hdot) in H1, H2, H3. tauto.
  - intros (Hn & Hdot & H1 & H2 & H3).
    apply (lang_lookahead_Class _ _ Hdot) in H1, H2, H3. tauto.
Qed.

Lemma strong_pattern (s : string) :
  pattern strong s = true <->
  (12 <= String.length s)%nat /\ allChars dotChar s = true /\
  someChar isLower s = true /\ someChar isUpper s = true /\
  someChar isDigit s = true /\ someChar isSymbol s = true.
Proof.
  cbn [pattern strong]. rewrite fullMatch_lang, !lang_Both_iff.
  unfold dot at 5. rewrite lang_atLeast_Class. fold dotChar.
  change (oneOf "@$!%*?&") with (Class isSymbol).
  split.
  - intros (H1 & H2 & H3 & H4 & Hn & Hdot).
    apply (lang_lookahead_Class _ _ Hdot) in H1, H2, H3, H4. tauto.
  - intros (Hn & Hdot & H1 & H2 & H3 & H4).
    apply (lang_lookahead_Class _ _ Hdot) in H1, H2, H3, H4. tauto.
Qed.

Lemma weak_pattern (s : string) :
  pattern weak s = true <->
  exists before run after,
    s = before ++ run ++ after /\
    (6 <= String.length run)%nat /\ allChars dotChar run = true.
Proof.
  cbn [pattern weak]. unfold search. rewrite fullMatch_lang, lang_Seq_iff.
  split.
  - intros (a & rest & -> & _ & H). apply lang_Seq_iff in H.
    destruct H as (m & b & -> & Hm & _).
    unfold dot in Hm. apply lang_atLeast_Class in Hm.
    exists a, m, b. split; [reflexivity|exact Hm].
  - intros (a & m & b & -> & Hm).
    exists a, (m ++ b). split; [reflexivity|].
    split; [apply lang_anything|].
    constructor; [|apply lang_anything].
    unfold dot. now apply lang_atLeast_Class.
Qed.

Lemma accepted_verdict (isValid : bool) (m : string) :
  accepted (Normal (verdict isValid m)) <-> isValid = true.
Proof.
  unfold accepted. split.
  - intros (r & E & V). injection E as <-. exact V.
  - intros ->. eexists. split; reflexivity.
Qed.

Lemma accepted_passes : accepted (Normal passes).
Proof. eexists. split; reflexivity. Qed.

(** X3. [password:medium] accepts the empty value and, apart from it,
    exactly the values of eight code units or more that hold no line
    terminator and hold a lower-case letter, an upper-case letter and a
    digit. *)
Theorem password_medium_accepts_exactly (value : string) :
  accepted (validatePassword value (Param "medium")) <->
  value = "" \/
  ((8 <= String.length value)%nat /\ allChars dotChar value = true /\
   someChar isLower value = true /\ someChar isUpper value = true /\
   someChar isDigit value = true).
Proof.
  unfold validatePassword. destruct value as [|c value].
  - simpl. split; [left; reflexivity|intros _; apply accepted_passes].
  - cbn [truthy String.eqb negb argToString].
    change (rules "medium") with (Own medium). unfold testRule.
    rewrite accepted_verdict, medium_pattern.
    split; [intros H; right; exact H|intros [H|H]; [discriminate|exact H]].
Qed.

Lemma password_medium_accepts_exactly_witness :
  accepted (validatePassword "Abcdefg1" (Param "medium")).
Proof.
  apply (proj2 (password_medium_accepts_exactly "Abcdefg1")).
  right. repeat split; simpl; lia.
Defined.

(** X4. [password:strong] accepts the empty value and, apart from it,
    exactly the values of twelve code units or more that hold no line
    terminator and hold a lower-case letter, an upper-case letter, a digit
    and one of [@$!%*?&]. *)
Theorem password_strong_accepts_exactly (value : string) :
  accepted (validatePassword value (Param "strong")) <->
  value = "" \/
  ((12 <= String.length value)%nat /\ allChars dotChar value = true /\
   someChar isLower value = true /\ someChar isUpper value = true /\
   someChar isDigit value = true /\ someChar isSymbol value = true).
Proof.
  unfold validatePassword. destruct value as [|c value].
  - simpl. split; [left; reflexivity|intros _; apply accepted_passes].
  - cbn [truthy String.eqb negb argToString].
    change (rules "strong") with (Own strong). unfold testRule.
    rewrite accepted_verdict, strong_pattern.
    split; [intros H; right; exact H|intros [H|H]; [discriminate|exact H]].
Qed.

Lemma password_strong_accepts_exactly_witness :
  accepted (validatePassword "Abcdefgh1234!" (Param "strong")).
Proof.
  apply (proj2 (password_strong_accepts_exactly "Abcdefgh1234!")).
  right. repeat split; simpl; lia.
Defined.

(** X5. The tiers are nested: what [password:strong] accepts,
    [password:medium] accepts, and what [password:medium] accepts,
    [password:weak] accepts. *)
Theorem password_tiers_nested (value : string) :
  (accepted (validatePassword value (Param "strong")) ->
   accepted (validatePassword value (Param "medium"))) /\
  (accepted (validatePassword value (Param "medium")) ->
   accepted (validatePassword value (Param "weak"))).
Proof.
  unfold validatePassword. destruct value as [|c value].
  - simpl. split; intros _; apply accepted_passes.
  - cbn [truthy String.eqb negb argToString].
    change (rules "strong") with (Own strong).
    change (rules "medium") with (Own medium).
    change (rules "weak") with (Own weak).
    unfold testRule. rewrite !accepted_verdict. split.
    + rewrite strong_pattern, medium_pattern.
      intros (Hn & Hdot & H1 & H2 & H3 & _). repeat split; try assumption. lia.
    + rewrite medium_pattern, weak_pattern.
      intros (Hn & Hdot & _).
      exists "", (String c value), "". rewrite append_empty_r.
      repeat split; [lia|exact Hdot].
Qed.

Lemma password_tiers_nested_witness :
  accepted (validatePassword "Abcdefgh1234!" (Param "medium")) /\
  accepted (validatePassword "Abcdefg1" (Param "weak")).
Proof.
  split.
  - apply (proj1 (password_tiers_nested "Abcdefgh1234!")).
    eexists. split; vm_compute; reflexivity.
  - apply (proj2 (password_tiers_nested "Abcdefg1")).
    eexists. split; vm_compute; reflexivity.
Defined.

(** X6. A strength that is no tier and no member of [Object.prototype]
    behaves as [medium], and so does the rule [password] with no parameter,
    where the strength is the field itself. *)
Theorem password_unknown_strength_is_medium
  (value strength : string) (field : Control) :
  (strength <> "weak" -> strength <> "strong" ->
   objectPrototype strength = None ->
   validatePassword value (Param strength)
   = validatePassword value (Param "medium")) /\
  validatePassword value (FieldArg field)
  = validatePassword value (Param "medium").
Proof.
  split.
  - intros Hweak Hstrong Hproto.
    unfold validatePassword, rules, inheritedOrAbsent. cbn [argToString].
    rewrite Hproto.
    destruct (String.eqb_spec strength "weak") as [->|_]; [congruence|].
    destruct (String.eqb_spec strength "medium") as [->|_]; [reflexivity|].
    destruct (String.eqb_spec strength "strong") as [->|_]; [congruence|].
    reflexivity.
  - destruct field; reflexivity.
Qed.

Lemma password_unknown_strength_is_medium_witness :
  validatePassword "abcdefg1" (Param "high")
  = Normal (fails "Password must be 8+ characters with uppercase, lowercase, and number").
Proof.
  rewrite (proj1 (password_unknown_strength_is_medium "abcdefg1" "high"
                    HTMLInputElement));
    [vm_compute; reflexivity|discriminate|discriminate|reflexivity].
Defined.

(** ** Rendering *)

Lemma includes_updateFieldUI (field : Field) (isValid : bool)
  (errorMessage : option string) (config : Options) (x : string) :
  includes (classList (updateFieldUI field isValid errorMessage config)) x
  = (includes (classList field) x
     && negb (String.eqb x "valid" || String.eqb x "invalid"))
    || (if isValid then String.eqb x "valid" else String.eqb x "invalid")
    || (isValid && optionTruthy (showSuccessIndicator config)
        && truthy (value field) && String.eqb x "has-success-icon").
Proof.
  unfold updateFieldUI. destruct isValid; cbn [classList andb].
  - destruct (optionTruthy (showSuccessIndicator config) && truthy (value field));
      rewrite ?includes_classAdd, includes_classRemove; simpl;
      rewrite ?orb_false_r; reflexivity.
  - rewrite includes_classAdd, includes_classRemove. simpl.
    rewrite ?orb_false_r. reflexivity.
Qed.

(** X7. When [validateField] returns, the field carries the class [valid]
    or the class [invalid], never both, as the boolean returned says;
    [aria-invalid] agrees, and the value and the rule chain of the field
    are untouched. *)
Theorem validateField_renders_its_result
  (P : Platform) (doc : Document) (config : Options) (f f' : Field) (ok : bool) :
  validateField P doc f config = Normal (f', ok) ->
  includes (classList f') "valid" = ok /\
  includes (classList f') "invalid" = negb ok /\
  ariaInvalid f' = Some (if ok then "false" else "true") /\
  value f' = value f /\ validate f' = validate f /\ control f' = control f.
Proof.
  unfold validateField.
  destruct (evaluateChain P doc (trim (value f)) (control f)
              (split "|" (validate f))) as [[isValid m]|e]; [|discriminate].
  intros E. injection E as <- <-.
  rewrite !includes_updateFieldUI. cbn [String.eqb Ascii.eqb Bool.eqb].
  rewrite !andb_false_r. cbn [orb negb andb].
  destruct isValid; cbn; repeat split; reflexivity.
Qed.

Lemma validateField_renders_its_result_witness :
  includes (classList (updateFieldUI (input "ab" "minLength:8") false
              (Some "Must be at least 8 characters") defaultOptions)) "invalid"
  = true.
Proof.
  apply (proj1 (proj2 (validateField_renders_its_result samplePlatform []
                  defaultOptions (input "ab" "minLength:8") _ false eq_refl))).
Defined.

(** X8. [updateFieldUI] removes no class but [valid] and [invalid]: a field
    that has the class [has-success-icon] keeps it when a later evaluation
    fails, beside the class [invalid]. *)
Theorem success_icon_survives_failure
  (P : Platform) (doc : Document) (config : Options) (f f' : Field) :
  includes (classList f) "has-success-icon" = true ->
  validateField P doc f config = Normal (f', false) ->
  includes (classList f') "has-success-icon" = true /\
  includes (classList f') "invalid" = true.
Proof.
  intros Hicon. unfold validateField.
  destruct (evaluateChain P doc (trim (value f)) (control f)
              (split "|" (validate f))) as [[isValid m]|e]; [|discriminate].
  intros E. injection E as <- ->.
  rewrite !includes_updateFieldUI, Hicon.
  split; [reflexivity|].
  destruct (includes (classList f) "invalid"); reflexivity.
Qed.

Lemma success_icon_survives_failure_witness :
  let once := updateFieldUI (input "ada@example.org" "email") true (Some "")
                defaultOptions in
  let edited := withValue once "ada" in
  includes (classList once) "has-success-icon" = true /\
  includes (classList (updateFieldUI edited false
              (Some "Please enter a valid email address") defaultOptions))
    "has-success-icon" = true.
Proof.
  split; [reflexivity|].
  apply (proj1 (success_icon_survives_failure samplePlatform [] defaultOptions
                  (withValue (updateFieldUI (input "ada@example.org" "email")
                                true (Some "") defaultOptions) "ada")
                  _ eq_refl eq_refl)).
Defined.

(** X9. Validating again a field that has not changed returns the same
    boolean and leaves the field with the same classes and the same
    [aria-invalid]. *)
Theorem validateField_again_changes_nothing
  (P : Platform) (doc : Document) (config : Options) (f f1 : Field) (ok : bool) :
  validateField P doc f config = Normal (f1, ok) ->
  exists f2,
    validateField P doc f1 config = Normal (f2, ok) /\
    (forall x, includes (classList f2) x = includes (classList f1) x) /\
    ariaInvalid f2 = ariaInvalid f1.
Proof.
  unfold validateField.
  destruct (evaluateChain P doc (trim (value f)) (control f)
              (split "|" (validate f))) as [[isValid m]|e] eqn:E; [|discriminate].
  intros H. injection H as <- <-.
  assert (Hframe : value (updateFieldUI f isValid m config) = value f /\
                   validate (updateFieldUI f isValid m config) = validate f /\
                   control (updateFieldUI f isValid m config) = control f)
    by (unfold updateFieldUI; destruct isValid; repeat split; reflexivity).
  destruct Hframe as (Hv & Hr & Hc). rewrite Hv, Hr, Hc, E.
  eexists. split; [reflexivity|]. split.
  - intros x. rewrite !includes_updateFieldUI, Hv.
    destruct (includes (classList f) x), (String.eqb x "valid"),
      (String.eqb x "invalid"), (String.eqb x "has-success-icon"), isValid,
      (optionTruthy (showSuccessIndicator config)), (truthy (value f));
      reflexivity.
  - unfold updateFieldUI. destruct isValid; reflexivity.
Qed.

Lemma validateField_again_changes_nothing_witness :
  exists f2,
    validateField samplePlatform []
      (updateFieldUI (input "ab" "minLength:8") false
         (Some "Must be at least 8 characters") defaultOptions) defaultOptions
    = Normal (f2, false).
Proof.
  destruct (validateField_again_changes_nothing samplePlatform [] defaultOptions
              (input "ab" "minLength:8") _ false eq_refl) as (f2 & H & _).
  exists f2. exact H.
Defined.

(** ** [required] on a field *)

Lemma trim_blank (s : string) : allChars isWhiteSpace s = true -> trim s = "".
Proof.
  unfold trim. induction s as [|c s IH]; simpl; [reflexivity|].
  intros H. apply andb_true_iff in H. destruct H as [Hc Hs].
  rewrite Hc. exact (IH Hs).
Qed.

(** X10. A field that holds nothing but white space and whose chain starts
    with [required:label] is refused with the message [label is required];
    no later rule is consulted. *)
Theorem required_refuses_blank_field
  (P : Platform) (doc : Document) (config : Options) (f : Field)
  (label : string) (rest : list string) :
  allChars isWhiteSpace (value f) = true ->
  split "|" (validate f) = ("required:" ++ label) :: rest ->
  label <> "" ->
  occurs ":" label = false ->
  validateField P doc f config
  = Normal (updateFieldUI f false (Some (label ++ " is required")) config, false).
Proof.
  intros Hblank Hsplit Hlabel Hcolon. unfold validateField.
  rewrite Hsplit, (trim_blank _ Hblank). cbn [evaluateChain]. unfold evaluateRule.
  change ("required:" ++ label) with ("required" ++ String ":" label).
  rewrite (split_at_separator ":" "required" label eq_refl),
    (split_without_separator ":" label Hcolon).
  cbn [hd tl map app]. change (validators "required") with (Own required).
  cbn [call arg nth]. unfold validateRequired. cbn [argTruthy argToString].
  unfold truthy. destruct (String.eqb_spec label "") as [E|_]; [congruence|].
  reflexivity.
Qed.

Lemma required_refuses_blank_field_witness :
  validateField samplePlatform [] (input "   " "required:Email|email") defaultOptions
  = Normal (updateFieldUI (input "   " "required:Email|email") false
              (Some "Email is required") defaultOptions, false).
Proof.
  apply (required_refuses_blank_field samplePlatform [] defaultOptions
           (input "   " "required:Email|email") "Email" ["email"]);
    [reflexivity|reflexivity|discriminate|reflexivity].
Defined.

(** X11. The rule [required] written with no label does not fall back to
    [This field]: the field itself stands where the label is read and the
    message starts with its string form, [[object HTMLInputElement]] for an
    input.  [This field] is shown for the rule [required:], whose label is
    the empty string. *)
Theorem required_without_label_names_the_element
  (P : Platform) (doc : Document) (config : Options) (f : Field)
  (rest : list string) :
  allChars isWhiteSpace (value f) = true ->
  (split "|" (validate f) = "required" :: rest ->
   validateField P doc f config
   = Normal (updateFieldUI f false
               (Some (controlToString (control f) ++ " is required")) config,
             false)) /\
  (split "|" (validate f) = "required:" :: rest ->
   validateField P doc f config
   = Normal (updateFieldUI f false (Some "This field is required") config, false)).
Proof.
  intros Hblank. unfold validateField. rewrite (trim_blank _ Hblank).
  split; intros ->; cbn [evaluateChain]; unfold evaluateRule;
    cbn [split hd tl map app]; reflexivity.
Qed.

Lemma required_without_label_names_the_element_witness :
  validateField samplePlatform [] (input "" "required") defaultOptions
  = Normal (updateFieldUI (input "" "required") false
              (Some "[object HTMLInputElement] is required") defaultOptions, false).
Proof.
  apply (proj1 (required_without_label_names_the_element samplePlatform []
                  defaultOptions (input "" "required") [] eq_refl)).
  reflexivity.
Defined.

(** ** Chains *)

Section MoreChains.

Context (P : Platform) (doc : Document) (value : string) (field : Control).

Lemma continuing_rule_is_transparent (rule : string) (mid post : list string) :
  continues P doc value field rule = true ->
  evaluateChain P doc value field (mid ++ rule :: post)
  = evaluateChain P doc value field (mid ++ post).
Proof.
  intros Hrule. induction mid as [|r mid IH]; simpl.
  - unfold continues in Hrule.
    destruct (evaluateRule P doc value field rule) as [[result|e]|];
      [rewrite Hrule| discriminate|]; reflexivity.
  - rewrite IH. reflexivity.
Qed.

Lemma chain_verdict (chain : list string) :
  forallb (ruleReturns P doc value field) chain = true ->
  verdictOf (evaluateChain P doc value field chain)
  = Some (forallb (continues P doc value field) chain).
Proof.
  induction chain as [|rule chain IH]; simpl; [reflexivity|].
  intros H. apply andb_true_iff in H. destruct H as [Hrule Hchain].
  unfold ruleReturns in Hrule. unfold continues at 1.
  destruct (evaluateRule P doc value field rule) as [[result|e]|];
    [|discriminate|exact (IH Hchain)].
  destruct (valid result); [exact (IH Hchain)|reflexivity].
Qed.

Lemma forallb_permutation {A : Type} (p : A -> bool) (l l' : list A) :
  Permutation l l' -> forallb p l = forallb p l'.
Proof.
  induction 1 as [|x l l' _ IH|x y l|l l' l'' _ IH1 _ IH2]; simpl.
  - reflexivity.
  - now rewrite IH.
  - destruct (p x), (p y); reflexivity.
  - now rewrite IH1.
Qed.

End MoreChains.

(** X12. An optional field left blank always validates: when the value is
    nothing but white space and every rule of the chain is unknown or names
    a validator other than [required] and [match], [validateField] returns
    true and renders the field valid. *)
Theorem blank_optional_field_passes
  (P : Platform) (doc : Document) (config : Options) (f : Field) :
  allChars isWhiteSpace (value f) = true ->
  forallb guardsEmpty (split "|" (validate f)) = true ->
  validateField P doc f config
  = Normal (updateFieldUI f true (Some "") config, true).
Proof.
  intros Hblank Hrules. unfold validateField. rewrite (trim_blank _ Hblank).
  assert (E : evaluateChain P doc "" (control f) (split "|" (validate f))
              = Normal (true, Some "")).
  { induction (split "|" (validate f)) as [|rule chain IH]; [reflexivity|].
    simpl in Hrules. apply andb_true_iff in Hrules.
    destruct Hrules as [Hrule Hchain]. cbn [evaluateChain].
    unfold guardsEmpty in Hrule. unfold evaluateRule.
    destruct (validators (hd "" (split ":" rule))) as [v|m|];
      [|discriminate|exact (IH Hchain)].
    destruct v; try discriminate; cbn [call]; exact (IH Hchain). }
  rewrite E. reflexivity.
Qed.

Lemma blank_optional_field_passes_witness :
  validateField samplePlatform [] (input "  " "email|minLength:8|password:strong")
    defaultOptions
  = Normal (updateFieldUI (input "  " "email|minLength:8|password:strong") true
              (Some "") defaultOptions, true).
Proof.
  apply (blank_optional_field_passes samplePlatform [] defaultOptions
           (input "  " "email|minLength:8|password:strong"));
    reflexivity.
Defined.

(** X13. Writing a rule a second time later in the chain changes nothing:
    the chain with the later copy removed ends the same way, message
    included. *)
Theorem repeated_rule_is_redundant
  (P : Platform) (doc : Document) (value : string) (field : Control)
  (pre mid post : list string) (rule : string) :
  evaluateChain P doc value field (pre ++ rule :: mid ++ rule :: post)
  = evaluateChain P doc value field (pre ++ rule :: mid ++ post).
Proof.
  induction pre as [|r pre IH]; [|simpl; rewrite IH; reflexivity].
  cbn [app evaluateChain].
  destruct (evaluateRule P doc value field rule) as [[result|e]|] eqn:E;
    [destruct (valid result) eqn:V| |]; try reflexivity;
    apply continuing_rule_is_transparent; unfold continues; rewrite E;
    [exact V|reflexivity].
Qed.

(** X14. When no rule of a chain raises, whether the chain passes does not
    depend on the order of its rules: it passes exactly when each rule is
    skipped or passes on its own. Only the message depends on the order. *)
Theorem chain_verdict_ignores_order
  (P : Platform) (doc : Document) (value : string) (field : Control)
  (chain chain' : list string) :
  Permutation chain chain' ->
  forallb (ruleReturns P doc value field) chain = true ->
  verdictOf (evaluateChain P doc value field chain)
  = Some (forallb (continues P doc value field) chain) /\
  verdictOf (evaluateChain P doc value field chain')
  = verdictOf (evaluateChain P doc value field chain).
Proof.
  intros Hperm Hreturns.
  assert (Hreturns' : forallb (ruleReturns P doc value field) chain' = true)
    by (rewrite <- (forallb_permutation _ _ _ Hperm); exact Hreturns).
  rewrite !chain_verdict by assumption.
  split; [reflexivity|].
  now rewrite (forallb_permutation _ _ _ Hperm).
Qed.

Lemma chain_verdict_ignores_order_witness :
  verdictOf (evaluateChain samplePlatform [] "ab" HTMLInputElement
               ["email"; "minLength:8"; "required"])
  = verdictOf (evaluateChain samplePlatform [] "ab" HTMLInputElement
               ["required"; "minLength:8"; "email"]).
Proof.
  apply (proj2 (chain_verdict_ignores_order samplePlatform [] "ab" HTMLInputElement
                  ["required"; "minLength:8"; "email"]
                  ["email"; "minLength:8"; "required"]
                  (Permutation_rev ["required"; "minLength:8"; "email"])
                  eq_refl)).
Defined.

(** X15. A rule whose name is none of the ten validators and no member of
    [Object.prototype] is skipped: the chain ends as it does with that rule
    removed.  The empty rule a stray [|] leaves is such a rule. *)
Theorem unknown_rule_is_skipped
  (P : Platform) (doc : Document) (value : string) (field : Control)
  (pre post : list string) (rule : string) :
  ~ In (hd "" (split ":" rule)) builtinNames ->
  objectPrototype (hd "" (split ":" rule)) = None ->
  evaluateChain P doc value field (pre ++ rule :: post)
  = evaluateChain P doc value field (pre ++ post).
Proof.
  intros Hbuiltin Hproto.
  apply continuing_rule_is_transparent. unfold continues, evaluateRule.
  rewrite (validators_absent _ Hbuiltin Hproto). reflexivity.
Qed.

Lemma unknown_rule_is_skipped_witness :
  evaluateChain samplePlatform [] "ab" HTMLInputElement
    (split "|" "required||minLenght:8|email")
  = evaluateChain samplePlatform [] "ab" HTMLInputElement
    (split "|" "required||email").
Proof.
  apply (unknown_rule_is_skipped samplePlatform [] "ab" HTMLInputElement
           ["required"; ""] ["email"] "minLenght:8");
    [simpl; intuition discriminate|reflexivity].
Defined.

(** ** Length rules in a chain *)

Lemma occurs_outside_class (p : ascii -> bool) (c : ascii) (s : string) :
  p c = false -> allChars p s = true -> occurs c s = false.
Proof.
  intros Hc. induction s as [|d s IH]; simpl; [reflexivity|].
  intros H. apply andb_true_iff in H. destruct H as [Hd Hs].
  rewrite (IH Hs), orb_false_r.
  destruct (Ascii.eqb_spec d c) as [->|_]; [congruence|reflexivity].
Qed.

Lemma numeral_digits (d : Decimal.uint) :
  allChars isDigit (NilEmpty.string_of_uint d) = true.
Proof. induction d; simpl; try reflexivity; exact IHd. Qed.

Lemma decimal_chars (z : Z) :
  allChars (fun c => isDigit c || Ascii.eqb c "-") (decimal z) = true.
Proof.
  assert (D : forall d, allChars (fun c => isDigit c || Ascii.eqb c "-")
                          (NilZero.string_of_uint d) = true).
  { intros d. destruct d; try reflexivity; simpl;
      assert (H := numeral_digits d);
      induction (NilEmpty.string_of_uint d) as [|c s IH]; try reflexivity;
      simpl in *; apply andb_true_iff in H; destruct H as [Hc Hs];
      rewrite Hc; simpl; exact (IH Hs). }
  unfold decimal. destruct (Z.to_int z) as [d|d]; simpl; [apply D|].
  exact (D d).
Qed.

Lemma decimal_without (c : ascii) (z : Z) :
  isDigit c || Ascii.eqb c "-" = false -> occurs c (decimal z) = false.
Proof.
  intros Hc.
  exact (occurs_outside_class _ c _ Hc (decimal_chars z)).
Qed.

Lemma maxLength_with_parsed_parameter (value : string) (parameter : Arg) (N : Z) :
  value <> "" ->
  parseInt (argToString parameter) = Int N ->
  validateMaxLength value parameter
  = verdict (len value <=? N) ("Must not exceed " ++ decimal N ++ " characters").
Proof.
  intros Hvalue Hparse. unfold validateMaxLength.
  rewrite (truthy_nonempty _ Hvalue), Hparse. reflexivity.
Qed.

Lemma evaluateRule_minLength (P : Platform) (doc : Document) (value : string)
  (field : Control) (parameter : string) :
  occurs ":" parameter = false ->
  evaluateRule P doc value field ("minLength:" ++ parameter)
  = Some (Normal (validateMinLength value (Param parameter))).
Proof.
  intros Hcolon. unfold evaluateRule.
  change ("minLength:" ++ parameter) with ("minLength" ++ String ":" parameter).
  rewrite (split_at_separator ":" "minLength" parameter eq_refl),
    (split_without_separator ":" parameter Hcolon).
  reflexivity.
Qed.

Lemma evaluateRule_maxLength (P : Platform) (doc : Document) (value : string)
  (field : Control) (parameter : string) :
  occurs ":" parameter = false ->
  evaluateRule P doc value field ("maxLength:" ++ parameter)
  = Some (Normal (validateMaxLength value (Param parameter))).
Proof.
  intros Hcolon. unfold evaluateRule.
  change ("maxLength:" ++ parameter) with ("maxLength" ++ String ":" parameter).
  rewrite (split_at_separator ":" "maxLength" parameter eq_refl),
    (split_without_separator ":" parameter Hcolon).
  reflexivity.
Qed.

(** X16. The chain [minLength:lo|maxLength:hi] on a field whose trimmed
    value is not empty passes exactly when the length of the trimmed value
    lies between [lo] and [hi]; below [lo] the message is that of
    [minLength], above [hi] that of [maxLength]. *)
Theorem length_window
  (P : Platform) (doc : Document) (config : Options) (f : Field) (lo hi : Z) :
  safeInteger lo -> safeInteger hi ->
  trim (value f) <> "" ->
  validate f = "minLength:" ++ decimal lo ++ "|maxLength:" ++ decimal hi ->
  let n := len (trim (value f)) in
  validateField P doc f config
  = Normal (updateFieldUI f ((lo <=? n) && (n <=? hi))
              (Some (if lo <=? n
                     then if n <=? hi then ""
                          else "Must not exceed " ++ decimal hi ++ " characters"
                     else "Must be at least " ++ decimal lo ++ " characters"))
              config,
            (lo <=? n) && (n <=? hi)).
Proof.
  intros _ _ Hvalue Hvalidate n. unfold validateField. rewrite Hvalidate.
  change ("minLength:" ++ decimal lo ++ "|maxLength:" ++ decimal hi)
    with ("minLength:" ++ (decimal lo ++ String "|" ("maxLength:" ++ decimal hi))).
  rewrite <- append_associative.
  rewrite split_at_separator
    by (simpl; apply decimal_without; reflexivity).
  rewrite split_without_separator
    by (simpl; apply decimal_without; reflexivity).
  cbn [evaluateChain].
  rewrite evaluateRule_minLength by (apply decimal_without; reflexivity).
  rewrite evaluateRule_maxLength by (apply decimal_without; reflexivity).
  rewrite (minLength_with_parsed_parameter _ (Param (decimal lo)) lo Hvalue
             (parseInt_decimal lo)),
    (maxLength_with_parsed_parameter _ (Param (decimal hi)) hi Hvalue
       (parseInt_decimal hi)).
  cbn [valid verdict message]. fold n.
  destruct (lo <=? n); [destruct (n <=? hi)|]; reflexivity.
Qed.

Lemma length_window_witness :
  validateField samplePlatform [] (input " abcdefghijkl " "minLength:3|maxLength:10")
    defaultOptions
  = Normal (updateFieldUI (input " abcdefghijkl " "minLength:3|maxLength:10") false
              (Some "Must not exceed 10 characters") defaultOptions, false).
Proof.
  apply (length_window samplePlatform [] defaultOptions
           (input " abcdefghijkl " "minLength:3|maxLength:10") 3 10);
    [unfold safeInteger; lia|unfold safeInteger; lia|discriminate|reflexivity].
Defined.

(** ** [validateNumber], [validateDate], [validatePhone] *)

(** X17. A bound of [number] or [date] that does not parse is ignored: the
    rule behaves as if the bound had not been given. *)
Theorem unparsable_bound_is_ignored
  (P : Platform) (value : string) (lower upper : Arg) :
  (parseFloat P (argToString lower) = None ->
   validateNumber P value lower upper = validateNumber P value Undefined upper) /\
  (parseFloat P (argToString upper) = None ->
   validateNumber P value lower upper = validateNumber P value lower Undefined) /\
  (parseDate P (argToString lower) = None ->
   validateDate P value lower upper = validateDate P value Undefined upper) /\
  (parseDate P (argToString upper) = None ->
   validateDate P value lower upper = validateDate P value lower Undefined).
Proof.
  unfold validateNumber, validateDate, floatBound, dateBound.
  repeat split; intros H.
  - destruct lower; rewrite ?H; reflexivity.
  - destruct upper; rewrite ?H; reflexivity.
  - rewrite H. destruct (argTruthy lower); reflexivity.
  - rewrite H. destruct (argTruthy upper); reflexivity.
Qed.

Lemma unparsable_bound_is_ignored_witness :
  validateNumber samplePlatform "-5" (Param "zero") (Param "100") = passes.
Proof.
  rewrite (proj1 (unparsable_bound_is_ignored samplePlatform "-5"
                    (Param "zero") (Param "100")));
    reflexivity.
Defined.

Lemma digitsOnly_append (s t : string) :
  digitsOnly (s ++ t) = digitsOnly s ++ digitsOnly t.
Proof.
  induction s as [|c s IH]; simpl; [reflexivity|].
  destruct (isDigit c); simpl; now rewrite IH.
Qed.

(** X18. [validatePhone] looks at the digits only: putting a code unit that
    is no digit anywhere into a value that is not empty does not change the
    result. *)
Theorem validatePhone_ignores_other_characters (before after : string) (c : ascii) :
  isDigit c = false ->
  before ++ after <> "" ->
  validatePhone (before ++ String c after) = validatePhone (before ++ after).
Proof.
  intros Hc Hvalue. unfold validatePhone.
  rewrite (truthy_nonempty _ Hvalue).
  rewrite truthy_nonempty by (destruct before; discriminate).
  rewrite !digitsOnly_append. simpl. rewrite Hc. reflexivity.
Qed.

Lemma validatePhone_ignores_other_characters_witness :
  validatePhone "555-0100 0199" = validatePhone "5550100 0199".
Proof.
  apply (validatePhone_ignores_other_characters "555" "0100 0199" "-");
    [reflexivity|discriminate].
Defined.

(** ** [validateFile] *)

Lemma lowerChar_idempotent (c : ascii) : lowerChar (lowerChar c) = lowerChar c.
Proof. destruct c as [[] [] [] [] [] [] [] []]; reflexivity. Qed.

Lemma lowerChar_dot (c : ascii) : Ascii.eqb (lowerChar c) "." = Ascii.eqb c ".".
Proof. destruct c as [[] [] [] [] [] [] [] []]; reflexivity. Qed.

Lemma toLowerCase_idempotent (s : string) :
  toLowerCase (toLowerCase s) = toLowerCase s.
Proof.
  induction s as [|c s IH]; simpl; [reflexivity|].
  now rewrite lowerChar_idempotent, IH.
Qed.

Lemma occurs_dot_toLowerCase (s : string) :
  occurs "." (toLowerCase s) = occurs "." s.
Proof.
  induction s as [|c s IH]; simpl; [reflexivity|].
  now rewrite lowerChar_dot, IH.
Qed.

Lemma validateFile_extension (file file' : File) (options : FileOptions) :
  size file' = size file -> type file' = type file ->
  extensionOf (name file') = extensionOf (name file) ->
  validateFile file' options = validateFile file options.
Proof.
  intros Hs Ht He. unfold validateFile. rewrite Hs, Ht, He. reflexivity.
Qed.

Lemma extensionOf_suffix (stem ext : string) :
  occurs "." ext = false -> extensionOf (stem ++ "." ++ ext) = "." ++ toLowerCase ext.
Proof.
  intros H. unfold extensionOf.
  change (stem ++ "." ++ ext) with (stem ++ String "." ext).
  now rewrite (pop_split_suffix "." stem ext H).
Qed.

Lemma extensionOf_dotless (fileName : string) :
  occurs "." fileName = false -> extensionOf fileName = "." ++ toLowerCase fileName.
Proof.
  intros H. unfold extensionOf.
  now rewrite (split_without_separator "." fileName H).
Qed.

(** X19. [validateFile] does not tell the letter case of the extension: a
    name whose part after the last dot is put in lower case gives the same
    result, whatever the options. *)
Theorem validateFile_ignores_extension_case
  (fileSize : Z) (mime stem ext : string) (options : FileOptions) :
  occurs "." ext = false ->
  validateFile
    {| size := fileSize; type := mime; name := stem ++ "." ++ toLowerCase ext |}
    options
  = validateFile {| size := fileSize; type := mime; name := stem ++ "." ++ ext |}
      options.
Proof.
  intros H. apply validateFile_extension; try reflexivity.
  cbn [name].
  rewrite (extensionOf_suffix stem ext H).
  rewrite extensionOf_suffix by (rewrite occurs_dot_toLowerCase; exact H).
  now rewrite toLowerCase_idempotent.
Qed.

Lemma validateFile_ignores_extension_case_witness :
  validateFile {| size := 2048; type := "image/png"; name := "cover.PNG" |}
    noFileOptions
  = passes.
Proof.
  refine (eq_trans
            (eq_sym (validateFile_ignores_extension_case 2048 "image/png"
                       "cover" "PNG" noFileOptions eq_refl)) _).
  reflexivity.
Defined.

(** X20. Of a file name [validateFile] reads only what follows the last
    dot, and a name with no dot is read whole: the files [stem.ext] and
    [ext] get the same result, so a file named [png] passes the extension
    check as [cover.png] does. *)
Theorem validateFile_reads_after_last_dot
  (fileSize : Z) (mime stem ext : string) (options : FileOptions) :
  occurs "." ext = false ->
  validateFile {| size := fileSize; type := mime; name := stem ++ "." ++ ext |}
    options
  = validateFile {| size := fileSize; type := mime; name := ext |} options.
Proof.
  intros H. apply validateFile_extension; try reflexivity.
  cbn [name]. now rewrite extensionOf_suffix, extensionOf_dotless.
Qed.

Lemma validateFile_reads_after_last_dot_witness :
  validateFile {| size := 1024; type := "image/png"; name := "png" |} noFileOptions
  = passes.
Proof.
  rewrite <- (validateFile_reads_after_last_dot 1024 "image/png" "cover" "png"
                noFileOptions eq_refl).
  reflexivity.
Defined.

(** X21. In the options of [validateFile] an empty list and [null] are
    opposite: with [allowedTypes: []] every file within the size limit is
    refused with [File type not allowed], while with [allowedTypes: null]
    and [allowedExtensions: null] every file within the size limit is
    accepted. *)
Theorem validateFile_empty_list_and_null (file : File) (options : FileOptions) :
  let limit := match optMaxSize options with
               | Some m => m
               | None => 10 * 1024 * 1024
               end in
  size file <= limit ->
  (optAllowedTypes options = Some (Some []) ->
   validateFile file options = fails "File type not allowed") /\
  (optAllowedTypes options = Some None ->
   optAllowedExtensions options = Some None ->
   validateFile file options = passes).
Proof.
  intros limit Hsize. apply Z.ltb_ge in Hsize.
  unfold validateFile, mergeFileConfig. cbn [maxSize allowedTypes allowedExtensions defaults].
  fold limit. rewrite Hsize. split.
  - intros ->. reflexivity.
  - intros -> ->. reflexivity.
Qed.

Lemma validateFile_empty_list_and_null_witness :
  validateFile {| size := 4096; type := "application/pdf"; name := "notes.pdf" |}
    {| optMaxSize := None; optAllowedTypes := Some None;
       optAllowedExtensions := Some None |}
  = passes.
Proof.
  apply (proj2 (validateFile_empty_list_and_null
                  {| size := 4096; type := "application/pdf"; name := "notes.pdf" |}
                  {| optMaxSize := None; optAllowedTypes := Some None;
                     optAllowedExtensions := Some None |}
                  ltac:(simpl; lia)));
    reflexivity.
Defined.

(** ** The listeners of [initForm] and [resetForm] *)

Section Events.

Context (P : Platform) (doc : Document) (config : Options).

Lemma validated_touched (f : Field) :
  includes (classList (validateInListener P doc config f)) "touched"
  = includes (classList f) "touched".
Proof.
  unfold validateInListener, validateField.
  destruct (evaluateChain P doc (trim (value f)) (control f)
              (split "|" (validate f))) as [[isValid m]|e]; [|reflexivity].
  rewrite includes_updateFieldUI. cbn [String.eqb Ascii.eqb Bool.eqb].
  destruct isValid; cbn [orb negb andb];
    rewrite ?andb_false_r, ?andb_true_r, ?orb_false_r; reflexivity.
Qed.

Lemma dispatch_keeps_touched (i : Input) (e : Event) :
  includes (classList (element i)) "touched" = true ->
  includes (classList (element (dispatch P doc config i e))) "touched" = true.
Proof.
  intros H. destruct e as [|newValue]; simpl.
  - unfold onBlur. cbn [element].
    destruct (touchOnce i); cbn [withClassList classList];
      rewrite ?includes_classAdd;
      destruct (optionTruthy (validateOnBlur config));
      rewrite ?validated_touched, H; reflexivity.
  - unfold onInput. cbn [element withValue classList].
    destruct (optionTruthy (validateOnInput config)
              && includes (classList (element i)) "touched");
      cbn [element]; rewrite ?validated_touched; exact H.
Qed.

Lemma dispatch_without_listener (i : Input) (e : Event) :
  touchOnce i = false ->
  includes (classList (element i)) "touched" = false ->
  touchOnce (dispatch P doc config i e) = false /\
  includes (classList (element (dispatch P doc config i e))) "touched" = false.
Proof.
  intros Honce H. destruct e as [|newValue]; simpl.
  - unfold onBlur. rewrite Honce. cbn [element touchOnce]. split; [reflexivity|].
    destruct (optionTruthy (validateOnBlur config));
      rewrite ?validated_touched; exact H.
  - unfold onInput. cbn [element withValue classList]. rewrite H, andb_false_r.
    cbn [element touchOnce withValue classList]. split; assumption.
Qed.

Lemma run_without_listener (i : Input) (events : list Event) :
  touchOnce i = false ->
  includes (classList (element i)) "touched" = false ->
  touchOnce (run P doc config i events) = false /\
  includes (classList (element (run P doc config i events))) "touched" = false.
Proof.
  revert i. unfold run.
  induction events as [|e events IH]; intros i Honce H; [split; assumption|].
  simpl. destruct (dispatch_without_listener i e Honce H) as [Honce' H'].
  exact (IH _ Honce' H').
Qed.

Lemma dispatch_disarms (i : Input) (e : Event) :
  touchOnce i = false -> touchOnce (dispatch P doc config i e) = false.
Proof.
  intros H. destruct e as [|newValue]; simpl; [reflexivity|].
  unfold onInput. cbn [element].
  destruct (optionTruthy (validateOnInput config) && _); exact H.
Qed.

Lemma run_after_blur (i : Input) (events : list Event) :
  In Blur events -> touchOnce (run P doc config i events) = false.
Proof.
  revert i. unfold run.
  induction events as [|e events IH]; intros i Hin; [destruct Hin|].
  simpl. destruct Hin as [->|Hin]; [|exact (IH _ Hin)].
  assert (H : touchOnce (dispatch P doc config i Blur) = false) by reflexivity.
  revert H. generalize (dispatch P doc config i Blur). clear.
  induction events as [|e events IH]; intros j H; [exact H|].
  simpl. apply IH. now apply dispatch_disarms.
Qed.

Lemma resetInput_untouched (i : Input) :
  includes (classList (element (resetInput i))) "touched" = false.
Proof.
  unfold resetInput. cbn [element classList].
  rewrite includes_classRemove. simpl. apply andb_false_r.
Qed.

End Events.

(** X22. Nothing the user does removes the class [touched]: once a bound
    field has it, it has it after any sequence of [blur] and [input]
    events. *)
Theorem touched_is_kept
  (P : Platform) (doc : Document) (config : Options) (i : Input)
  (events : list Event) :
  includes (classList (element i)) "touched" = true ->
  includes (classList (element (run P doc config i events))) "touched" = true.
Proof.
  revert i. unfold run. induction events as [|e events IH]; intros i H; [exact H|].
  simpl. apply IH. now apply dispatch_keeps_touched.
Qed.

Lemma touched_is_kept_witness :
  let options := {| validateOnBlur := Some true; validateOnInput := Some true;
                    showSuccessIndicator := Some true;
                    preserveDataOnError := Some true |} in
  includes
    (classList (element (run samplePlatform [] options
                           (run samplePlatform [] options
                              (bind (input "" "required:Name") "") [Blur])
                           [Edit "A"; Edit ""; Blur; Edit "Ada"])))
    "touched" = true.
Proof.
  intros options.
  apply (touched_is_kept samplePlatform [] options
           (run samplePlatform [] options (bind (input "" "required:Name") "") [Blur])
           [Edit "A"; Edit ""; Blur; Edit "Ada"]).
  reflexivity.
Defined.

Lemma last_of_nonempty {A : Type} (a : A) (l : list A) (d d' : A) :
  last (a :: l) d = last (a :: l) d'.
Proof.
  revert a. induction l as [|b l IH]; intros a; [reflexivity|].
  change (last (b :: l) d = last (b :: l) d'). apply IH.
Qed.

(** X23. Until a bound field is of class [touched], [input] events change
    nothing but its value, even with [validateOnInput] set: after a
    sequence of edits the field is as it was, with the last value typed. *)
Theorem edits_before_touched_do_not_validate
  (P : Platform) (doc : Document) (config : Options) (i : Input)
  (values : list string) :
  includes (classList (element i)) "touched" = false ->
  run P doc config i (map Edit values)
  = {| element := withValue (element i) (last values (value (element i)));
       defaultValue := defaultValue i;
       touchOnce := touchOnce i |}.
Proof.
  revert i. unfold run.
  induction values as [|v values IH]; intros i H.
  - destruct i as [[c v r cl a e] d o]. reflexivity.
  - cbn [map fold_left dispatch]. unfold onInput.
    cbn [element withValue classList]. rewrite H, andb_false_r.
    rewrite IH by exact H. cbn [element defaultValue touchOnce].
    unfold withValue. cbn [control value validate classList ariaInvalid errorElement].
    destruct values as [|w values]; [reflexivity|].
    now rewrite (last_of_nonempty w values v (value (element i))).
Qed.

Lemma edits_before_touched_do_not_validate_witness :
  let options := {| validateOnBlur := Some true; validateOnInput := Some true;
                    showSuccessIndicator := Some true;
                    preserveDataOnError := Some true |} in
  element (run samplePlatform [] options (bind (input "" "email") "")
             (map Edit ["a"; "ad"; "ada"]))
  = input "ada" "email".
Proof.
  intros options.
  rewrite (edits_before_touched_do_not_validate samplePlatform [] options
             (bind (input "" "email") "") ["a"; "ad"; "ada"] eq_refl).
  reflexivity.
Defined.

(** X24. The listener that adds [touched] is registered once and removed
    when it has run; [resetForm] removes the class and registers nothing.
    So once a bound field has been left, after [resetForm] it is never of
    class [touched] again, whatever the user does, and an [input] event
    then changes nothing but the value: live validation is off for good. *)
Theorem reset_ends_live_validation
  (P : Platform) (doc : Document) (config : Options)
  (field : Field) (default : string) (before after : list Event)
  (typed : string) :
  In Blur before ->
  let left := run P doc config (bind field default) before in
  let later := run P doc config (resetInput left) after in
  includes (classList (element later)) "touched" = false /\
  dispatch P doc config later (Edit typed)
  = {| element := withValue (element later) typed;
       defaultValue := defaultValue later;
       touchOnce := false |}.
Proof.
  intros Hblur left later.
  assert (Honce : touchOnce (resetInput left) = false)
    by (exact (run_after_blur P doc config _ _ Hblur)).
  destruct (run_without_listener P doc config (resetInput left) after Honce
              (resetInput_untouched left)) as [Honce' Htouched].
  fold later in Honce', Htouched. split; [exact Htouched|].
  cbn [dispatch]. unfold onInput. cbn [element withValue classList].
  rewrite Htouched, andb_false_r, Honce'. reflexivity.
Qed.

Lemma reset_ends_live_validation_witness :
  let options := {| validateOnBlur := Some true; validateOnInput := Some true;
                    showSuccessIndicator := Some true;
                    preserveDataOnError := Some true |} in
  let left := run samplePlatform [] options (bind (input "" "email") "")
                [Edit "ada"; Blur] in
  includes (classList (element left)) "touched" = true /\
  includes
    (classList (element (run samplePlatform [] options (resetInput left)
                           [Edit "bob"; Blur; Edit "bobby"])))
    "touched" = false.
Proof.
  intros options left. split; [reflexivity|].
  apply (proj1 (reset_ends_live_validation samplePlatform [] options
                  (input "" "email") "" [Edit "ada"; Blur]
                  [Edit "bob"; Blur; Edit "bobby"] ""
                  (or_intror (or_introl eq_refl)))).
Defined.

(** ** [sanitizeInput] *)

Lemma occurs_append (c : ascii) (s t : string) :
  occurs c (s ++ t) = occurs c s || occurs c t.
Proof.
  induction s as [|d s IH]; simpl; [reflexivity|].
  now rewrite IH, orb_assoc.
Qed.

Lemma escapeChar_cases (c : ascii) :
  (special c = true /\
   (escapeChar c = "&amp;" \/ escapeChar c = "&lt;" \/
    escapeChar c = "&gt;" \/ escapeChar c = "&nbsp;")) \/
  (special c = false /\ escapeChar c = String c "").
Proof.
  unfold special, escapeChar.
  destruct (Ascii.eqb c "&"); [left; split; [reflexivity|tauto]|].
  destruct (Ascii.eqb c "<"); [left; split; [reflexivity|tauto]|].
  destruct (Ascii.eqb c ">"); [left; split; [reflexivity|tauto]|].
  destruct (Ascii.eqb c (ascii_of_N 160)); [left; split; [reflexivity|tauto]|].
  right. split; reflexivity.
Qed.

(** X25. The text [sanitizeInput] returns holds neither [<] nor [>]. *)
Theorem sanitizeInput_has_no_angle_bracket (input : string) :
  occurs "<" (sanitizeInput input) = false /\
  occurs ">" (sanitizeInput input) = false.
Proof.
  induction input as [|c rest [IHlt IHgt]]; [split; reflexivity|].
  cbn [sanitizeInput]. rewrite !occurs_append, IHlt, IHgt, !orb_false_r.
  unfold escapeChar.
  destruct (Ascii.eqb c "&") eqn:Eamp; [split; reflexivity|].
  destruct (Ascii.eqb_spec c "<") as [->|Hlt]; [split; reflexivity|].
  destruct (Ascii.eqb_spec c ">") as [->|Hgt]; [split; reflexivity|].
  destruct (Ascii.eqb c (ascii_of_N 160)); [split; reflexivity|].
  simpl. rewrite !orb_false_r.
  split; apply Ascii.eqb_neq; assumption.
Qed.

Lemma sanitizeInput_plain (input : string) :
  someChar special input = false -> sanitizeInput input = input.
Proof.
  induction input as [|c rest IH]; simpl; [reflexivity|]. intros H.
  apply orb_false_iff in H. destruct H as [Hc Hrest].
  destruct (escapeChar_cases c) as [[Hs _]|[_ ->]]; [congruence|].
  simpl. now rewrite (IH Hrest).
Qed.

Lemma sanitizeInput_length (input : string) :
  (String.length input <= String.length (sanitizeInput input))%nat /\
  (someChar special input = true ->
   (String.length input < String.length (sanitizeInput input))%nat).
Proof.
  induction input as [|c rest [IHle IHlt]]; simpl; [split; [lia|discriminate]|].
  rewrite length_append.
  destruct (escapeChar_cases c) as [[Hs [E|[E|[E|E]]]]|[Hs E]];
    rewrite E, Hs; simpl; split; try lia.
  intros H. specialize (IHlt H). lia.
Qed.

Lemma sanitizeInput_special (input : string) :
  someChar special (sanitizeInput input) = someChar special input.
Proof.
  induction input as [|c rest IH]; simpl; [reflexivity|].
  rewrite someChar_append, IH.
  destruct (escapeChar_cases c) as [[Hs [E|[E|[E|E]]]]|[Hs E]];
    rewrite E, Hs; simpl; rewrite ?Hs; reflexivity.
Qed.

(** X26. [sanitizeInput] returns its input unchanged exactly when the input
    holds none of [&], [<], [>] and the no-break space (quotes are left as
    they are), and only then is sanitizing twice the same as sanitizing
    once: text that was escaped is escaped again. *)
Theorem sanitizeInput_fixed_points (input : string) :
  (sanitizeInput input = input <-> someChar special input = false) /\
  (sanitizeInput (sanitizeInput input) = sanitizeInput input
   <-> someChar special input = false).
Proof.
  assert (Fixed : forall s, sanitizeInput s = s <-> someChar special s = false).
  { intros s. split; [|apply sanitizeInput_plain].
    intros E. destruct (someChar special s) eqn:S; [|reflexivity].
    destruct (sanitizeInput_length s) as [_ Hlt]. specialize (Hlt S).
    rewrite E in Hlt. lia. }
  split; [apply Fixed|].
  rewrite Fixed. now rewrite sanitizeInput_special.
Qed.

Lemma sanitizeInput_fixed_points_witness :
  sanitizeInput "it's 'Ada'" = "it's 'Ada'".
Proof.
  apply (proj2 (proj1 (sanitizeInput_fixed_points "it's 'Ada'"))).
  reflexivity.
Defined.

(** ** [getFormData] *)

Lemma own_assign (data : Data) (key key' : string) (v : DataValue) :
  own (assign data key v) key'
  = if String.eqb key key' then Some v else own data key'.
Proof.
  induction data as [|[k old] data IH]; simpl.
  - reflexivity.
  - destruct (String.eqb_spec k key) as [->|Hk]; simpl.
    + destruct (String.eqb key key'); reflexivity.
    + rewrite IH. destruct (String.eqb_spec key key') as [<-|_]; [|reflexivity].
      destruct (String.eqb_spec k key); [congruence|reflexivity].
Qed.

Lemma valuesOf_snoc (key k : string) (v : EntryValue)
  (entries : list (string * EntryValue)) :
  valuesOf key (entries ++ [(k, v)])
  = (valuesOf key entries ++ if String.eqb k key then [v] else [])%list.
Proof.
  induction entries as [|[k' v'] entries IH]; simpl.
  - destruct (String.eqb k key); reflexivity.
  - rewrite IH. destruct (String.eqb k' key); reflexivity.
Qed.

Lemma kept_snoc (values : list EntryValue) (v : EntryValue) :
  kept (values ++ [v])
  = match kept values with
    | [] => [v]
    | [first] => if entryTruthy first then [first; v] else [v]
    | several => (several ++ [v])%list
    end.
Proof.
  induction values as [|x values IH]; [simpl; destruct (entryTruthy v); reflexivity|].
  cbn [app kept]. destruct (entryTruthy x) eqn:T.
  - destruct values; [rewrite T|]; reflexivity.
  - destruct values as [|y values].
    + simpl. rewrite T. destruct (entryTruthy v); reflexivity.
    + exact IH.
Qed.

Lemma store_holds (entries : list (string * EntryValue)) (data : Data)
  (k : string) (v : EntryValue) :
  objectPrototype k = None ->
  (forall key, own data key = held (kept (valuesOf key entries))) ->
  exists data',
    store (Some data) (k, v) = Some data' /\
    forall key, own data' key = held (kept (valuesOf key (entries ++ [(k, v)]))).
Proof.
  intros Hproto Hdata. cbn [store].
  destruct (String.eqb_spec k "__proto__") as [->|_]; [discriminate Hproto|].
  assert (Other : forall d key, String.eqb k key = false ->
            own (assign data k d) key
            = held (kept (valuesOf key (entries ++ [(k, v)])))).
  { intros d key E. rewrite own_assign, valuesOf_snoc, E, app_nil_r. apply Hdata. }
  assert (Same : forall d,
            held (kept (valuesOf k entries ++ [v])) = Some d ->
            forall key, own (assign data k d) key
                        = held (kept (valuesOf key (entries ++ [(k, v)])))).
  { intros d Hd key. destruct (String.eqb k key) eqn:E; [|now apply Other].
    apply String.eqb_eq in E. subst key.
    rewrite own_assign, valuesOf_snoc, !String.eqb_refl. now rewrite Hd. }
  rewrite (Hdata k), Hproto.
  rewrite kept_snoc in Same.
  destruct (kept (valuesOf k entries)) as [|first [|second more]]; cbn [held].
  - eexists. split; [reflexivity|]. now apply Same.
  - destruct (entryTruthy first); eexists; (split; [reflexivity|]);
      now apply Same.
  - eexists. split; [reflexivity|]. apply Same. cbn [app held map].
    now rewrite map_app.
Qed.

(** X27. When no entry is named after a member of [Object.prototype],
    [getFormData] gives every name its values in order: a name that occurs
    once holds its value, a name that occurs several times holds the array
    of its values, save that falsy values (empty strings) in front are
    overwritten by the value that follows them. *)
Theorem getFormData_collects_values (entries : list (string * EntryValue)) :
  (forall k v, In (k, v) entries -> objectPrototype k = None) ->
  exists data,
    getFormData entries = Some data /\
    forall key, own data key = held (kept (valuesOf key entries)).
Proof.
  unfold getFormData.
  induction entries as [|[k v] entries IH] using rev_ind; intros Hkeys.
  - exists []. split; reflexivity.
  - destruct IH as (data & E & Hdata).
    { intros k' v' Hin. apply (Hkeys k' v'), in_or_app. now left. }
    rewrite fold_left_app, E. cbn [fold_left].
    apply (store_holds entries data k v); [|exact Hdata].
    apply (Hkeys k v), in_or_app. right. now left.
Qed.

Lemma getFormData_collects_values_witness :
  getFormData [("genre", Text "rock"); ("name", Text "Ada");
               ("genre", Text "jazz"); ("tag", Text ""); ("tag", Text "live")]
  = Some [("genre", Many [Entry (Text "rock"); Entry (Text "jazz")]);
          ("name", Single (Text "Ada"));
          ("tag", Single (Text "live"))].
Proof.
  destruct (getFormData_collects_values
              [("genre", Text "rock"); ("name", Text "Ada");
               ("genre", Text "jazz"); ("tag", Text ""); ("tag", Text "live")])
    as (data & E & _).
  - intros k v Hin. simpl in Hin.
    repeat (destruct Hin as [Hin|Hin]; [injection Hin as <- <-; reflexivity|]).
    destruct Hin.
  - reflexivity.
Defined.

(** X28. A form control named after a member of [Object.prototype] other
    than [__proto__] ([constructor], [toString], ...) is not collected as
    its value: [data[key]] already reads the inherited member, so the first
    value is stored in an array behind that member. *)
Theorem getFormData_inherited_name
  (key : string) (m : ObjectPrototypeMember) (v : EntryValue) :
  objectPrototype key = Some m ->
  m <> proto ->
  getFormData [(key, v)] = Some [(key, Many [Member m; Entry v])].
Proof.
  intros Hm Hproto. unfold getFormData. cbn [fold_left store own].
  destruct (String.eqb_spec key "__proto__") as [->|_].
  - cbv in Hm. injection Hm as <-. congruence.
  - rewrite Hm. reflexivity.
Qed.

Lemma getFormData_inherited_name_witness :
  getFormData [("constructor", Text "Ada")]
  = Some [("constructor", Many [Member constructor; Entry (Text "Ada")])].
Proof.
  apply (getFormData_inherited_name "constructor" constructor (Text "Ada"));
    [reflexivity|discriminate].
Defined.

(** ** Submission without exception *)

Lemma querySelectorInvalid_first (form : Form) (i : nat) :
  querySelectorInvalid form = Some i ->
  exists node,
    nth_error form i = Some node /\
    hasClass "invalid" node = true /\
    forall j node', (j < i)%nat -> nth_error form j = Some node' ->
                    hasClass "invalid" node' = false.
Proof.
  revert i. induction form as [|node form IH]; intros i; simpl; [discriminate|].
  destruct (hasClass "invalid" node) eqn:C.
  - intros [= <-]. exists node. repeat split; [exact C|]. intros j node' Hj. lia.
  - destruct (querySelectorInvalid form) as [k|]; [|discriminate].
    intros [= <-]. destruct (IH k eq_refl) as (found & Hnth & Hclass & Hbefore).
    exists found. repeat split; [exact Hnth|exact Hclass|].
    intros [|j] node' Hj Hn; simpl in Hn.
    + injection Hn as <-. exact C.
    + apply (Hbefore j node'); [lia|exact Hn].
Qed.

Lemma firstInvalid_exists (P : Platform) (doc : Document) (config : Options)
  (form : Form) :
  forallb (passesField P doc config) (inputs form) = false ->
  firstInvalid P doc config form <> None.
Proof.
  induction form as [|[field|classes] form IH]; simpl; [discriminate| |].
  - destruct (passesField P doc config field); simpl; [|discriminate].
    intros H. specialize (IH H).
    destruct (firstInvalid P doc config form); [discriminate|congruence].
  - intros H. specialize (IH H).
    destruct (includes classes "invalid"); [discriminate|].
    destruct (firstInvalid P doc config form); [discriminate|congruence].
Qed.

(** X29. When the evaluation of no bound field raises, the submit handler
    evaluates every bound field, in order.  If all of them pass it
    dispatches [formValid] with the collected data and moves no focus;
    otherwise it dispatches nothing and gives the focus to the first
    element of the form, in tree order, that is of class [invalid]. *)
Theorem onSubmit_without_exception
  {Data : Type} (getFormData : Form -> Data)
  (P : Platform) (doc : Document) (options : Options) (form : Form) :
  let config := mergeOptions defaultOptions options in
  let submission := onSubmit getFormData P doc options form in
  forallb (completes P doc config) (inputs form) = true ->
  validated submission = inputs form /\
  uncaught submission = None /\
  (forallb (passesField P doc config) (inputs form) = true ->
   formValid submission = Some (getFormData (page submission)) /\
   focused submission = None) /\
  (forallb (passesField P doc config) (inputs form) = false ->
   formValid submission = None /\
   exists i node,
     focused submission = Some i /\
     nth_error (page submission) i = Some node /\
     hasClass "invalid" node = true /\
     forall j node', (j < i)%nat -> nth_error (page submission) j = Some node' ->
                     hasClass "invalid" node' = false).
Proof.
  intros config submission H. subst submission. unfold onSubmit. fold config.
  destruct (forEachInput_completes P doc config form true H) as (He & Hr & Hq).
  rewrite Hr. cbn [andb].
  destruct (forallb (passesField P doc config) (inputs form)) eqn:All;
    cbn [validated uncaught formValid focused page];
    (split; [exact He|]); (split; [reflexivity|]);
    (split; [intros E; try discriminate E|intros E; try discriminate E]).
  - split; reflexivity.
  - split; [reflexivity|].
    pose proof (firstInvalid_exists P doc config form All) as Hsome.
    rewrite <- Hq in Hsome.
    destruct (querySelectorInvalid (rendered (forEachInput P doc config form true)))
      as [i|] eqn:Q; [|congruence].
    destruct (querySelectorInvalid_first _ i Q) as (node & Hnth & Hclass & Hbefore).
    exists i, node. repeat split; assumption.
Qed.

Lemma onSubmit_without_exception_witness :
  let form := [Bound (input "ada@example.org" "required|email");
               Unbound ["hint"];
               Bound (input "12345" "required|phone");
               Bound (input "" "required:Password")] in
  let submission :=
    onSubmit (fun page : Form => List.length page) samplePlatform [] noOptions form in
  validated submission = inputs form /\ focused submission = Some 2%nat.
Proof.
  intros form submission.
  destruct (onSubmit_without_exception (fun page : Form => List.length page)
              samplePlatform [] noOptions form eq_refl)
    as (Hvalidated & _ & _ & Hfail).
  split; [exact Hvalidated|].
  reflexivity.
Defined.

(** ** Length rules written without a parameter *)

Lemma parseInt_of_control (c : Control) :
  parseInt (argToString (FieldArg c)) = NaN.
Proof. destruct c; reflexivity. Qed.

Lemma length_rule_with_NaN_parameter_helper (value : string) (parameter : Arg) :
  value <> "" ->
  parseInt (argToString parameter) = NaN ->
  validateMinLength value parameter = fails "Must be at least NaN characters" /\
  validateMaxLength value parameter = fails "Must not exceed NaN characters".
Proof.
  intros Hvalue Hnan. unfold validateMinLength, validateMaxLength.
  rewrite (truthy_nonempty _ Hvalue), Hnan. split; reflexivity.
Qed.

(** X30. The rules [minLength] and [maxLength] written with no parameter
    read the field itself as their bound, which [parseInt] turns into
    [NaN]: a field whose trimmed value is not empty and whose chain starts
    with such a rule is refused, whatever it holds. *)
Theorem length_rule_without_parameter_refuses
  (P : Platform) (doc : Document) (config : Options) (f : Field)
  (rest : list string) :
  trim (value f) <> "" ->
  (split "|" (validate f) = "minLength" :: rest ->
   validateField P doc f config
   = Normal (updateFieldUI f false (Some "Must be at least NaN characters") config,
             false)) /\
  (split "|" (validate f) = "maxLength" :: rest ->
   validateField P doc f config
   = Normal (updateFieldUI f false (Some "Must not exceed NaN characters") config,
             false)).
Proof.
  intros Hvalue.
  destruct (length_rule_with_NaN_parameter_helper (trim (value f))
              (FieldArg (control f)) Hvalue (parseInt_of_control (control f)))
    as [Hmin Hmax].
  unfold validateField.
  split; intros ->; cbn [evaluateChain]; unfold evaluateRule.
  - change (split ":" "minLength") with ["minLength"].
    cbn [hd tl map app]. change (validators "minLength") with (Own minLength).
    cbn [call arg nth]. rewrite Hmin. reflexivity.
  - change (split ":" "maxLength") with ["maxLength"].
    cbn [hd tl map app]. change (validators "maxLength") with (Own maxLength).
    cbn [call arg nth]. rewrite Hmax. reflexivity.
Qed.

Lemma length_rule_without_parameter_refuses_witness :
  validateField samplePlatform [] (input "Ada Lovelace" "minLength") defaultOptions
  = Normal (updateFieldUI (input "Ada Lovelace" "minLength") false
              (Some "Must be at least NaN characters") defaultOptions, false).
Proof.
  apply (proj1 (length_rule_without_parameter_refuses samplePlatform []
                  defaultOptions (input "Ada Lovelace" "minLength") []
                  ltac:(discriminate))).
  reflexivity.
Defined.
